(** * mockextras.matchers: the matchers [Any], [Contains] and [AnyOf]

    A shallow embedding of [src/mockextras/matchers.py] together with the
    part of the Python 2 object model the three classes rest on:
    the class hierarchy behind [isinstance], the dispatch of [==]
    (the left operand's comparison first, the reflected one of the
    right operand when the left one declines), the membership test [in]
    of strings, lists, tuples and sets, [hash], [repr], [str] and the
    string formatting operator [%].

    Scope of the object model.  Values are [None], booleans, integers
    ([int]; [VInt n] stands for an [int], so [n] is meant within the
    machine range, a [long] is not modelled), byte strings, lists,
    tuples, class objects and instances of the three matcher classes;
    containers may hold any of these, matchers included.  Instances of
    the matcher classes carry an object identity [oid], because Python
    compares them by identity where it may ([x is y] before [x == y]
    inside containers) and hashes them by identity.  Sets, which only
    occur as the private [_set] of [AnyOf], are kept as the list of their
    elements.  Values are finite trees: a list that contains itself is
    not a term. *)

From Stdlib Require Import ZArith String Ascii List Bool Lia DecimalString.
Import ListNotations.
Local Open Scope string_scope.
Local Open Scope Z_scope.
Local Open Scope list_scope.

Set Warnings "-register-all".

(* ================================================================== *)
(** ** Exceptions and results *)

Inductive exn : Type :=
| TypeError.

Inductive result (A : Type) : Type :=
| Ok (a : A)
| Raise (e : exn).

Arguments Ok {A} a.
Arguments Raise {A} e.

Definition bind {A B : Type} (r : result A) (k : A -> result B) : result B :=
  match r with
  | Ok a => k a
  | Raise e => Raise e
  end.

Notation "x <- r ;; k" := (bind r (fun x => k))
  (at level 61, r at next level, right associativity).

(** [not e] on a value that is already a bool. *)
Definition py_not (r : result bool) : result bool :=
  b <- r ;; Ok (negb b).

Definition raises {A : Type} (r : result A) : bool :=
  match r with
  | Ok _ => false
  | Raise _ => true
  end.

(** A list mapped through a function that may raise; the first
    exception ends the walk. *)
Section traverse.
Variables A B : Type.
Variable f : A -> result B.
Fixpoint map_result (l : list A) : result (list B) :=
  match l with
  | [] => Ok []
  | x :: r => y <- f x ;; ys <- map_result r ;; Ok (y :: ys)
  end.
End traverse.

Arguments map_result {A B} f l.

(* ================================================================== *)
(** ** Classes *)

Inductive pytype : Type :=
| TObject | TType | TNoneType | TBool | TInt
| TBasestring | TStr | TUnicode | TList | TTuple
| TAny | TContains | TAnyOf.

Definition pytype_eqb (a b : pytype) : bool :=
  match a, b with
  | TObject, TObject | TType, TType | TNoneType, TNoneType
  | TBool, TBool | TInt, TInt | TBasestring, TBasestring
  | TStr, TStr | TUnicode, TUnicode | TList, TList | TTuple, TTuple
  | TAny, TAny | TContains, TContains | TAnyOf, TAnyOf => true
  | _, _ => false
  end.

(** The direct base class: [class Any(object)], [class Contains(object)],
    [class AnyOf(object)] in the module, the built-in ones as Python 2
    declares them. *)
Definition base (t : pytype) : option pytype :=
  match t with
  | TObject => None
  | TBool => Some TInt
  | TStr | TUnicode => Some TBasestring
  | _ => Some TObject
  end.

(** The method resolution order, which [issubclass] searches. *)
Definition mro (t : pytype) : list pytype :=
  match t with
  | TObject => [TObject]
  | TBool => [TBool; TInt; TObject]
  | TStr => [TStr; TBasestring; TObject]
  | TUnicode => [TUnicode; TBasestring; TObject]
  | _ => [t; TObject]
  end.

Definition issubclass (t u : pytype) : bool :=
  existsb (pytype_eqb u) (mro t).

(** [t] is [u] or a subclass of it: the reflexive and transitive closure
    of [base]. *)
Inductive subclass_of : pytype -> pytype -> Prop :=
| sub_refl : forall t, subclass_of t t
| sub_base : forall t b u, base t = Some b -> subclass_of b u -> subclass_of t u.

Definition type_name (t : pytype) : string :=
  match t with
  | TObject => "object" | TType => "type" | TNoneType => "NoneType"
  | TBool => "bool" | TInt => "int" | TBasestring => "basestring"
  | TStr => "str" | TUnicode => "unicode" | TList => "list"
  | TTuple => "tuple"
  | TAny => "Any" | TContains => "Contains" | TAnyOf => "AnyOf"
  end.

Definition is_builtin (t : pytype) : bool :=
  match t with
  | TAny | TContains | TAnyOf => false
  | _ => true
  end.

(* ================================================================== *)
(** ** Values *)

Inductive value : Type :=
| VNone
| VBool (b : bool)
| VInt (n : Z)
| VStr (s : string)
| VList (xs : list value)
| VTuple (xs : list value)
| VType (t : pytype)
| VAny (oid : nat) (cls : value)
| VContains (oid : nat) (needle : value)
| VAnyOf (oid : nat) (members : list value).

(** Induction over values that reaches into lists and tuples. *)
Section value_induction.
Variable P : value -> Prop.
Hypothesis HNone : P VNone.
Hypothesis HBool : forall b, P (VBool b).
Hypothesis HInt : forall n, P (VInt n).
Hypothesis HStr : forall s, P (VStr s).
Hypothesis HList : forall xs, Forall P xs -> P (VList xs).
Hypothesis HTuple : forall xs, Forall P xs -> P (VTuple xs).
Hypothesis HType : forall t, P (VType t).
Hypothesis HAny : forall o c, P c -> P (VAny o c).
Hypothesis HContains : forall o n, P n -> P (VContains o n).
Hypothesis HAnyOf : forall o ms, Forall P ms -> P (VAnyOf o ms).

Fixpoint value_ind' (v : value) : P v :=
  let all := fix all (l : list value) : Forall P l :=
    match l with
    | [] => Forall_nil P
    | x :: r => Forall_cons x (value_ind' x) (all r)
    end in
  match v with
  | VNone => HNone
  | VBool b => HBool b
  | VInt n => HInt n
  | VStr s => HStr s
  | VList xs => HList xs (all xs)
  | VTuple xs => HTuple xs (all xs)
  | VType t => HType t
  | VAny o c => HAny o c (value_ind' c)
  | VContains o n => HContains o n (value_ind' n)
  | VAnyOf o ms => HAnyOf o ms (all ms)
  end.
End value_induction.

(** [type(v)] *)
Definition type_of (v : value) : pytype :=
  match v with
  | VNone => TNoneType
  | VBool _ => TBool
  | VInt _ => TInt
  | VStr _ => TStr
  | VList _ => TList
  | VTuple _ => TTuple
  | VType _ => TType
  | VAny _ _ => TAny
  | VContains _ _ => TContains
  | VAnyOf _ _ => TAnyOf
  end.

Definition is_matcher (v : value) : bool :=
  match v with
  | VAny _ _ | VContains _ _ | VAnyOf _ _ => true
  | _ => false
  end.

(** The identity of an instance of one of the matcher classes. *)
Definition oid_of (v : value) : option nat :=
  match v with
  | VAny o _ | VContains o _ | VAnyOf o _ => Some o
  | _ => None
  end.

(** [x is y], where it can change the outcome of a comparison: for two
    instances of the matcher classes.  For the other values [x == y] is
    true whenever [x is y]. *)
Definition is_same (a b : value) : bool :=
  match oid_of a, oid_of b with
  | Some o, Some o' => Nat.eqb o o'
  | _, _ => false
  end.

(* ================================================================== *)
(** ** isinstance *)

(** [isinstance(inst, cls)]: [cls] is a class, or a tuple of classes and
    such tuples, searched from the left until one matches; anything else
    is a [TypeError]. *)
Fixpoint isinstance (inst cls : value) {struct cls} : result bool :=
  match cls with
  | VType t => Ok (issubclass (type_of inst) t)
  | VTuple items =>
      (fix any_of (l : list value) : result bool :=
         match l with
         | [] => Ok false
         | c :: rest =>
             r <- isinstance inst c ;;
             if r then Ok true else any_of rest
         end) items
  | _ => Raise TypeError
  end.

(** What [isinstance] accepts as its second argument. *)
Fixpoint is_classinfo (cls : value) : bool :=
  match cls with
  | VType _ => true
  | VTuple items => forallb is_classinfo items
  | _ => false
  end.

(* ================================================================== *)
(** ** hash *)

(** The key under which a set files a value.  Equal keys stand for equal
    hashes and equal values; numbers are filed by their value ([True] and
    [1] share a key), instances of the matcher classes by identity, as
    Python 2 does for a class that defines [__eq__] and no [__hash__].
    Two values with different keys are never found in place of one
    another: the chance that the address of a matcher collides with the
    hash of another value is left out. *)
Inductive hkey : Type :=
| HNone
| HNum (n : Z)
| HStr (s : string)
| HTuple (ks : list hkey)
| HType (t : pytype)
| HId (o : nat).

Section hkey_induction.
Variable P : hkey -> Prop.
Hypothesis PNone : P HNone.
Hypothesis PNum : forall n, P (HNum n).
Hypothesis PStr : forall s, P (HStr s).
Hypothesis PTuple : forall ks, Forall P ks -> P (HTuple ks).
Hypothesis PType : forall t, P (HType t).
Hypothesis PId : forall o, P (HId o).

Fixpoint hkey_ind' (k : hkey) : P k :=
  match k with
  | HNone => PNone
  | HNum n => PNum n
  | HStr s => PStr s
  | HTuple ks =>
      PTuple ks ((fix all (l : list hkey) : Forall P l :=
                 match l with
                 | [] => Forall_nil P
                 | x :: r => Forall_cons x (hkey_ind' x) (all r)
                 end) ks)
  | HType t => PType t
  | HId o => PId o
  end.
End hkey_induction.

Fixpoint hkey_eqb (j k : hkey) {struct j} : bool :=
  match j, k with
  | HNone, HNone => true
  | HNum m, HNum n => Z.eqb m n
  | HStr s, HStr t => String.eqb s t
  | HTuple js, HTuple ks =>
      (fix all2 (l l' : list hkey) : bool :=
         match l, l' with
         | [], [] => true
         | a :: r, b :: r' => hkey_eqb a b && all2 r r'
         | _, _ => false
         end) js ks
  | HType t, HType u => pytype_eqb t u
  | HId o, HId o' => Nat.eqb o o'
  | _, _ => false
  end.

(** The number of nodes of a key. *)
Fixpoint hkey_size (k : hkey) : nat :=
  match k with
  | HTuple ks =>
      S ((fix sum (l : list hkey) : nat :=
            match l with
            | [] => 0%nat
            | x :: r => (hkey_size x + sum r)%nat
            end) ks)
  | _ => 1%nat
  end.

(** [hash(v)], as the key it leads to; lists are unhashable, a tuple is
    hashable when its items are. *)
Fixpoint py_hash (v : value) : result hkey :=
  match v with
  | VNone => Ok HNone
  | VBool b => Ok (HNum (Z.b2z b))
  | VInt n => Ok (HNum n)
  | VStr s => Ok (HStr s)
  | VList _ => Raise TypeError
  | VTuple xs => ks <- map_result py_hash xs ;; Ok (HTuple ks)
  | VType t => Ok (HType t)
  | VAny o _ | VContains o _ | VAnyOf o _ => Ok (HId o)
  end.

Definition hashable (v : value) : bool := negb (raises (py_hash v)).

(** The keys a set with the elements [ms] holds. *)
Definition keys_of (ms : list value) : list hkey :=
  flat_map (fun e => match py_hash e with Ok k => [k] | Raise _ => [] end) ms.

Definition has_key (k : hkey) (e : value) : bool :=
  match py_hash e with
  | Ok k' => hkey_eqb k' k
  | Raise _ => false
  end.

(** [x in s] for a set [s] with the elements [ms]: hash [x], then look
    for an element filed under that key. *)
Definition set_contains (x : value) (ms : list value) : result bool :=
  k <- py_hash x ;; Ok (existsb (has_key k) ms).

(** [s.add(x)]: nothing changes when the key is taken. *)
Definition set_add (ms : list value) (x : value) : result (list value) :=
  k <- py_hash x ;;
  Ok (if existsb (has_key k) ms then ms else ms ++ [x]).

(** [set(items)].  A set has no order of its own: the order in which
    CPython walks one follows its hash table.  The list keeps the
    elements in the order of their first occurrence; membership and the
    number of elements do not depend on it, only the order in which
    [repr] prints the elements does. *)
Fixpoint set_fill (ms : list value) (items : list value) : result (list value) :=
  match items with
  | [] => Ok ms
  | x :: rest => ms' <- set_add ms x ;; set_fill ms' rest
  end.

Definition set_of_items (items : list value) : result (list value) :=
  set_fill [] items.

(* ================================================================== *)
(** ** Strings *)

(** [p in s] for two byte strings: [p] occurs in [s]. *)
Fixpoint is_substring (p s : string) : bool :=
  String.prefix p s ||
  match s with
  | EmptyString => false
  | String _ rest => is_substring p rest
  end.

(* ================================================================== *)
(** ** Equality and membership *)

(** [p in s] with a byte string [s]: the left operand has to be a string. *)
Definition in_str (n : value) (s : string) : result bool :=
  match n with
  | VStr p => Ok (is_substring p s)
  | _ => Raise TypeError
  end.

Definition num_of (v : value) : option Z :=
  match v with
  | VBool b => Some (Z.b2z b)
  | VInt n => Some n
  | _ => None
  end.

(** [a == b] between two built-in values that are not both lists or both
    tuples: numbers by value, strings and classes by content, [None] with
    itself, and false across types. *)
Definition scalar_eqb (a b : value) : bool :=
  match a, b with
  | VNone, VNone => true
  | VStr s, VStr t => String.eqb s t
  | VType t, VType u => pytype_eqb t u
  | _, _ =>
      match num_of a, num_of b with
      | Some m, Some n => Z.eqb m n
      | _, _ => false
      end
  end.

Section loops.
Variable A : Type.

(** The loop of a sequence's [__contains__]: stop at the first item
    that passes; an exception in a test ends the loop. *)
Fixpoint first_true (test : A -> result bool) (l : list A) : result bool :=
  match l with
  | [] => Ok false
  | y :: r => t <- test y ;; if t then Ok true else first_true test r
  end.

(** The loop of a sequence's comparison: item by item up to the first
    pair that differs; equal when both run out together. *)
Fixpoint items_eq (test : A -> A -> result bool) (xs ys : list A) : result bool :=
  match xs, ys with
  | [], [] => Ok true
  | x :: r, y :: r' => t <- test x y ;; if t then items_eq test r r' else Ok false
  | _, _ => Ok false
  end.
End loops.

Arguments first_true {A} test l.
Arguments items_eq {A} test xs ys.

(** The two directions of [==], defined together by recursion on the
    first argument: [eq_lr a b] is [a == b] and [eq_rl a b] is [b == a].
    A matcher on the left is asked first; a built-in value on the left
    declines a matcher on the right, whose [__eq__] is then called with
    the operands swapped.  [py_eq_unfold] below states the same without
    the second function. *)
Fixpoint eq_lr (a b : value) {struct a} : result bool :=
  match a with
  | VAny _ cls => isinstance b cls
  | VContains _ n =>
      match b with
      | VStr s => in_str n s
      | VList ys | VTuple ys =>
          first_true (fun y => if is_same n y then Ok true else eq_lr n y) ys
      | _ => Raise TypeError
      end
  | VAnyOf _ ms => set_contains b ms
  | VList xs =>
      match b with
      | VAny _ cls => isinstance a cls
      | VContains _ n =>
          first_true (fun x => if is_same n x then Ok true else eq_rl x n) xs
      | VAnyOf _ ms => set_contains a ms
      | VList ys =>
          if Nat.eqb (length xs) (length ys)
          then items_eq (fun x y => if is_same x y then Ok true else eq_lr x y) xs ys
          else Ok false
      | _ => Ok false
      end
  | VTuple xs =>
      match b with
      | VAny _ cls => isinstance a cls
      | VContains _ n =>
          first_true (fun x => if is_same n x then Ok true else eq_rl x n) xs
      | VAnyOf _ ms => set_contains a ms
      | VTuple ys =>
          items_eq (fun x y => if is_same x y then Ok true else eq_lr x y) xs ys
      | _ => Ok false
      end
  | _ =>
      match b with
      | VAny _ cls => isinstance a cls
      | VContains _ n =>
          match a with
          | VStr s => in_str n s
          | _ => Raise TypeError
          end
      | VAnyOf _ ms => set_contains a ms
      | _ => Ok (scalar_eqb a b)
      end
  end

with eq_rl (a b : value) {struct a} : result bool :=
  match b with
  | VAny _ cls => isinstance a cls
  | VContains _ n =>
      match a with
      | VStr s => in_str n s
      | VList xs | VTuple xs =>
          first_true (fun x => if is_same n x then Ok true else eq_rl x n) xs
      | _ => Raise TypeError
      end
  | VAnyOf _ ms => set_contains a ms
  | _ =>
      match a with
      | VAny _ cls => isinstance b cls
      | VContains _ n =>
          match b with
          | VStr s => in_str n s
          | VList ys | VTuple ys =>
              first_true (fun y => if is_same n y then Ok true else eq_lr n y) ys
          | _ => Raise TypeError
          end
      | VAnyOf _ ms => set_contains b ms
      | VList xs =>
          match b with
          | VList ys =>
              if Nat.eqb (length ys) (length xs)
              then items_eq (fun x y => if is_same y x then Ok true else eq_rl x y) xs ys
              else Ok false
          | _ => Ok false
          end
      | VTuple xs =>
          match b with
          | VTuple ys =>
              items_eq (fun x y => if is_same y x then Ok true else eq_rl x y) xs ys
          | _ => Ok false
          end
      | _ => Ok (scalar_eqb b a)
      end
  end.

(** [a == b] *)
Definition py_eq (a b : value) : result bool := eq_lr a b.

(** [PyObject_RichCompareBool(x, y, Py_EQ)], the test containers apply
    to their items: the same object, or an equal one. *)
Definition eq_item (x y : value) : result bool :=
  if is_same x y then Ok true else py_eq x y.

(** [n in c]: substring test for a string, item test for a list or a
    tuple; the other values have no membership test. *)
Definition py_in (n c : value) : result bool :=
  match c with
  | VStr s => in_str n s
  | VList ys | VTuple ys => first_true (eq_item n) ys
  | _ => Raise TypeError
  end.

(** A value without a matcher anywhere inside. *)
Fixpoint plain (v : value) : bool :=
  match v with
  | VList xs | VTuple xs => forallb plain xs
  | VAny _ _ | VContains _ _ | VAnyOf _ _ => false
  | _ => true
  end.

Definition supports_in (c : value) : bool :=
  match c with
  | VStr _ | VList _ | VTuple _ => true
  | _ => false
  end.

(** [a == b] for two built-in values. *)
Definition builtin_eq (a b : value) : result bool :=
  match a, b with
  | VList xs, VList ys =>
      if Nat.eqb (length xs) (length ys) then items_eq eq_item xs ys else Ok false
  | VTuple xs, VTuple ys => items_eq eq_item xs ys
  | _, _ => Ok (scalar_eqb a b)
  end.

(* ================================================================== *)
(** ** repr, str and the formatting operator *)

Definition quote_char : ascii := "'"%char.
Definition dquote_char : ascii := "034"%char.
Definition backslash_char : ascii := "092"%char.

Fixpoint has_char (c : ascii) (s : string) : bool :=
  match s with
  | EmptyString => false
  | String d r => Ascii.eqb c d || has_char c r
  end.

Definition hex_digit (n : nat) : ascii :=
  ascii_of_nat (if (n <? 10)%nat then 48 + n else 87 + n).

(** One character of a string inside [repr]. *)
Definition escape_char (quote c : ascii) : string :=
  let s1 (d : ascii) := String d EmptyString in
  let n := nat_of_ascii c in
  if Ascii.eqb c quote || Ascii.eqb c backslash_char
  then String backslash_char (s1 c)
  else if (n =? 9)%nat then String backslash_char "t"
  else if (n =? 10)%nat then String backslash_char "n"
  else if (n =? 13)%nat then String backslash_char "r"
  else if (n <? 32)%nat || (127 <=? n)%nat
  then String backslash_char
         (String "x" (String (hex_digit (n / 16)) (s1 (hex_digit (n mod 16)))))
  else s1 c.

Fixpoint escape_string (quote : ascii) (s : string) : string :=
  match s with
  | EmptyString => EmptyString
  | String c r => append (escape_char quote c) (escape_string quote r)
  end.

(** [repr] of a byte string: single quotes, unless the string holds a
    single quote and no double quote. *)
Definition repr_str (s : string) : string :=
  let quote :=
    if has_char quote_char s && negb (has_char dquote_char s)
    then dquote_char else quote_char in
  String quote (append (escape_string quote s) (String quote EmptyString)).

Definition repr_int (n : Z) : string :=
  DecimalString.NilZero.string_of_int (Z.to_int n).

(** [repr] of a class: a built-in one is a [type], the ones of this
    module print with the module's name. *)
Definition repr_type (t : pytype) : string :=
  if is_builtin t
  then append "<type '" (append (type_name t) "'>")
  else append "<class 'mockextras.matchers." (append (type_name t) "'>").

Definition is_object (cls : value) : bool :=
  match cls with
  | VType TObject => true
  | _ => false
  end.

Definition commas (rs : list string) : string := String.concat ", " rs.

Definition wrap (pre body post : string) : string :=
  append pre (append body post).

(** [repr(v)].  The three matcher classes define [__repr__] with the
    formatting operator; [Any.__repr__], [Contains.__repr__] and
    [AnyOf.__repr__] below are those methods as the module writes them,
    and [py_repr_Any], [py_repr_Contains] and [py_repr_AnyOf] show that
    this function calls them. *)
Fixpoint py_repr (v : value) : result string :=
  let str (x : value) : result string :=
    match x with
    | VStr s => Ok s
    | _ => py_repr x
    end in
  match v with
  | VNone => Ok "None"
  | VBool b => Ok (if b then "True" else "False")
  | VInt n => Ok (repr_int n)
  | VStr s => Ok (repr_str s)
  | VList xs => rs <- map_result py_repr xs ;; Ok (wrap "[" (commas rs) "]")
  | VTuple xs =>
      rs <- map_result py_repr xs ;;
      Ok (match rs with
          | [r] => wrap "(" r ",)"
          | _ => wrap "(" (commas rs) ")"
          end)
  | VType t => Ok (repr_type t)
  | VAny _ cls =>
      match cls with
      | VType TObject => Ok "Any()"
      | VTuple [x] => s <- str x ;; Ok (wrap "Any(" s ")")
      | VTuple _ => Raise TypeError
      | _ => s <- str cls ;; Ok (wrap "Any(" s ")")
      end
  | VContains _ n =>
      match n with
      | VTuple [x] => s <- py_repr x ;; Ok (wrap "Contains(" s ")")
      | VTuple _ => Raise TypeError
      | _ => s <- py_repr n ;; Ok (wrap "Contains(" s ")")
      end
  | VAnyOf _ ms =>
      rs <- map_result py_repr ms ;;
      Ok (wrap "AnyOf(" (wrap "set([" (commas rs) "])") ")")
  end.

(** [str(v)]: a string is itself, everything else prints as its [repr]. *)
Definition py_str (v : value) : result string :=
  match v with
  | VStr s => Ok s
  | _ => py_repr v
  end.

(** [repr(s)] of a set with the elements [ms], printed in the order of
    the list.  CPython prints a set in the order of its hash table, so
    for two or more elements the order of the printed elements may
    differ from the one here. *)
Definition repr_set (ms : list value) : result string :=
  rs <- map_result py_repr ms ;; Ok (wrap "set([" (commas rs) "])").

(** The conversions the module uses. *)
Inductive conversion : Type :=
| conv_s    (* %s *)
| conv_r.   (* %r *)

Definition convert (c : conversion) (v : value) : result string :=
  match c with
  | conv_s => py_str v
  | conv_r => py_repr v
  end.

(** [fmt % arg] for a format [fmt] of the shape [pre %c post] with one
    conversion: a tuple on the right is the tuple of the arguments, and
    has to hold exactly one; any other value is the one argument. *)
Definition py_format (pre : string) (c : conversion) (post : string)
    (arg : value) : result string :=
  let args := match arg with VTuple xs => xs | _ => [arg] end in
  match args with
  | [x] => s <- convert c x ;; Ok (wrap pre s post)
  | _ => Raise TypeError
  end.

(* ================================================================== *)
(** ** The three classes *)

(** [hasattr(v, '__iter__')]: lists and tuples have the method, and so
    have the classes [list] and [tuple] themselves (as an attribute of
    the class); a Python 2 [str] has none, nor have numbers, [None] or
    instances of the matcher classes.  The other classes of Python with
    the attribute ([dict], [set], [frozenset]) are not in this
    universe. *)
Definition has_iter (v : value) : bool :=
  match v with
  | VList _ | VTuple _ => true
  | VType TList | VType TTuple => true
  | _ => false
  end.

(** The items [set(v)] would walk through. *)
Definition py_iter (v : value) : result (list value) :=
  match v with
  | VList xs | VTuple xs => Ok xs
  | VStr s => Ok (map (fun c => VStr (String c EmptyString)) (list_ascii_of_string s))
  | _ => Raise TypeError
  end.

(** An instance is its identity [oid] and its attributes. *)
Module Any.
Record t : Type := Make { oid : nat; _cls : value }.

Definition to_value (self : t) : value := VAny (oid self) (_cls self).

(** [def __init__(self, cls=object)] *)
Definition __init__ (o : nat) (cls : option value) : t :=
  {| oid := o;
     _cls := match cls with Some c => c | None => VType TObject end |}.

(** [return isinstance(other, self._cls)] *)
Definition __eq__ (self : t) (other : value) : result bool :=
  isinstance other (_cls self).

(** [return not self.__eq__(other)] *)
Definition __ne__ (self : t) (other : value) : result bool :=
  py_not (__eq__ self other).

(** [return 'Any(%s)' % ('' if self._cls is object else self._cls)] *)
Definition __repr__ (self : t) : result string :=
  py_format "Any(" conv_s ")"
    (if is_object (_cls self) then VStr "" else _cls self).
End Any.

Module Contains.
Record t : Type := Make { oid : nat; _value : value }.

Definition to_value (self : t) : value := VContains (oid self) (_value self).

(** [def __init__(self, value)] *)
Definition __init__ (o : nat) (v : value) : t :=
  {| oid := o; _value := v |}.

(** [return self._value in other] *)
Definition __eq__ (self : t) (other : value) : result bool :=
  py_in (_value self) other.

(** [return not self.__eq__(other)] *)
Definition __ne__ (self : t) (other : value) : result bool :=
  py_not (__eq__ self other).

(** [return 'Contains(%r)' % self._value] *)
Definition __repr__ (self : t) : result string :=
  py_format "Contains(" conv_r ")" (_value self).
End Contains.

Module AnyOf.
Record t : Type := Make { oid : nat; _set : list value }.

Definition to_value (self : t) : value := VAnyOf (oid self) (_set self).

(** The test of [__init__]:
    [len(args) > 1 or (len(args) > 0 and
       (not hasattr(args[0], '__iter__') or isinstance(args[0], basestring)))] *)
Definition discrete (args : list value) : result bool :=
  if (1 <? length args)%nat then Ok true
  else
    match args with
    | [] => Ok false
    | a0 :: _ =>
        if negb (has_iter a0) then Ok true
        else isinstance a0 (VType TBasestring)
    end.

(** [set] called on the unpacked [args], at most one argument. *)
Definition set_star (args : list value) : result (list value) :=
  match args with
  | [] => Ok []
  | [a0] => items <- py_iter a0 ;; set_of_items items
  | _ => Raise TypeError
  end.

(** [def __init__(self, *args)] *)
Definition __init__ (o : nat) (args : list value) : result t :=
  d <- discrete args ;;
  s <- (if d then set_of_items args else set_star args) ;;
  Ok {| oid := o; _set := s |}.

(** [return other in self._set] *)
Definition __eq__ (self : t) (other : value) : result bool :=
  set_contains other (_set self).

(** [return not self.__eq__(other)] *)
Definition __ne__ (self : t) (other : value) : result bool :=
  py_not (__eq__ self other).

(** [return 'AnyOf(%r)' % self._set]; a set is not a tuple, so it is
    the one argument of the format. *)
Definition __repr__ (self : t) : result string :=
  s <- repr_set (_set self) ;; Ok (wrap "AnyOf(" s ")").
End AnyOf.

(** The candidates a call [AnyOf( *args)] takes: the items of a single
    list or tuple, or the arguments themselves when there are two or
    more. *)
Inductive candidates : list value -> list value -> Prop :=
| cand_list : forall xs, candidates [VList xs] xs
| cand_tuple : forall xs, candidates [VTuple xs] xs
| cand_args : forall a b rest, candidates (a :: b :: rest) (a :: b :: rest).

(** The [__eq__] of the class of [self], for the classes that define one. *)
Definition method_eq (self other : value) : option (result bool) :=
  match self with
  | VAny o c => Some (Any.__eq__ (Any.Make o c) other)
  | VContains o n => Some (Contains.__eq__ (Contains.Make o n) other)
  | VAnyOf o ms => Some (AnyOf.__eq__ (AnyOf.Make o ms) other)
  | _ => None
  end.

(** The [__ne__] of the class of [self]. *)
Definition method_ne (self other : value) : option (result bool) :=
  match self with
  | VAny o c => Some (Any.__ne__ (Any.Make o c) other)
  | VContains o n => Some (Contains.__ne__ (Contains.Make o n) other)
  | VAnyOf o ms => Some (AnyOf.__ne__ (AnyOf.Make o ms) other)
  | _ => None
  end.

(** [a == b] as Python dispatches it: the [__eq__] of the left operand's
    class; without one, the [__eq__] of the right operand's class with
    the operands swapped; without either, the built-in comparison. *)
Definition dispatch_eq (a b : value) : result bool :=
  match method_eq a b with
  | Some r => r
  | None =>
      match method_eq b a with
      | Some r => r
      | None => builtin_eq a b
      end
  end.

(** [a != b], dispatched the same way to [__ne__]; two built-in values
    differ when they are not equal. *)
Definition py_ne (a b : value) : result bool :=
  match method_ne a b with
  | Some r => r
  | None =>
      match method_ne b a with
      | Some r => r
      | None => py_not (builtin_eq a b)
      end
  end.

(** The class of [v] declines [v == w]: it has no [__eq__] that answers
    for [w], so Python turns to the reflected [__eq__] of [w].  The
    built-in values of this universe decline every comparison with a
    matcher.  A class whose own [__eq__] answers is asked first when it
    stands on the left and does not decline: the three matcher classes
    are such classes, and so would be any other class that defines an
    answering [__eq__]. *)
Definition declines_eq (v w : value) : bool :=
  match method_eq v w with
  | None => true
  | Some _ => false
  end.

(** The same for [v != w] and [__ne__]. *)
Definition declines_ne (v w : value) : bool :=
  match method_ne v w with
  | None => true
  | Some _ => false
  end.

(* ================================================================== *)
(** ** Facts about the loops and the two directions of [==] *)

Lemma first_true_ext {A : Type} (f g : A -> result bool) (l : list A) :
  Forall (fun x => f x = g x) l -> first_true f l = first_true g l.
Proof.
  induction 1 as [|x r Hx _ IH]; simpl; [reflexivity|].
  rewrite Hx, IH. reflexivity.
Qed.

Lemma items_eq_ext {A : Type} (f g : A -> A -> result bool) (xs ys : list A) :
  Forall (fun x => forall y, f x y = g x y) xs ->
  items_eq f xs ys = items_eq g xs ys.
Proof.
  intros H. revert ys.
  induction H as [|x r Hx _ IH]; intros [|y ys]; simpl; try reflexivity.
  rewrite Hx, IH. reflexivity.
Qed.

Lemma items_eq_swap (A : Type) (f : A -> A -> result bool) (xs ys : list A) :
  items_eq f xs ys = items_eq (fun y x => f x y) ys xs.
Proof.
  revert ys. induction xs as [|x r IH]; intros [|y ys]; simpl; try reflexivity.
  rewrite IH. reflexivity.
Qed.

Lemma is_same_sym (a b : value) : is_same a b = is_same b a.
Proof.
  unfold is_same. destruct (oid_of a), (oid_of b); try reflexivity.
  apply Nat.eqb_sym.
Qed.

Lemma scalar_eqb_sym (a b : value) : scalar_eqb a b = scalar_eqb b a.
Proof.
  destruct a, b; simpl; try reflexivity;
    auto using String.eqb_sym, Z.eqb_sym.
  destruct t, t0; reflexivity.
Qed.

Lemma eq_swap (a : value) :
  forall b, eq_rl a b = eq_lr b a /\ eq_lr a b = eq_rl b a.
Proof.
  induction a as [|b0|z|s|xs IH|xs IH|t|o c IH|o n IH|o ms IH] using value_ind';
    intros b.
  1-4, 7: destruct b; simpl; auto using scalar_eqb_sym.
  - (* list *)
    destruct b as [| | | |ys|ys| |o c|o n|o ms]; simpl; auto.
    + split.
      * rewrite (items_eq_swap _ _ ys xs).
        destruct (Nat.eqb (length ys) (length xs)); [|reflexivity].
        apply items_eq_ext.
        eapply Forall_impl; [|exact IH].
        intros x Hx y. simpl in *. rewrite (proj1 (Hx y)). reflexivity.
      * rewrite (items_eq_swap _ _ ys xs).
        destruct (Nat.eqb (length xs) (length ys)); [|reflexivity].
        apply items_eq_ext.
        eapply Forall_impl; [|exact IH].
        intros x Hx y. simpl in *. rewrite (proj2 (Hx y)). reflexivity.
    + split; apply first_true_ext; (eapply Forall_impl; [|exact IH]);
        intros x Hx; simpl in *; rewrite (proj1 (Hx n)); reflexivity.
  - (* tuple *)
    destruct b as [| | | |ys|ys| |o c|o n|o ms]; simpl; auto.
    + split.
      * rewrite (items_eq_swap _ _ ys xs).
        apply items_eq_ext.
        eapply Forall_impl; [|exact IH].
        intros x Hx y. simpl in *. rewrite (proj1 (Hx y)). reflexivity.
      * rewrite (items_eq_swap _ _ ys xs).
        apply items_eq_ext.
        eapply Forall_impl; [|exact IH].
        intros x Hx y. simpl in *. rewrite (proj2 (Hx y)). reflexivity.
    + split; apply first_true_ext; (eapply Forall_impl; [|exact IH]);
        intros x Hx; simpl in *; rewrite (proj1 (Hx n)); reflexivity.
  - destruct b; simpl; auto.
  - destruct b as [| | | |ys|ys| |o' c|o' n'|o' ms]; simpl; auto;
      split; apply first_true_ext; apply Forall_forall; intros y _;
      rewrite (proj2 (IH y)); reflexivity.
  - destruct b; simpl; auto.
Qed.

Lemma py_eq_flip (a b : value) : eq_rl a b = py_eq b a.
Proof. exact (proj1 (eq_swap a b)). Qed.

Lemma py_in_reflected (n a : value) :
  match a with
  | VStr s => in_str n s
  | VList xs | VTuple xs =>
      first_true (fun x => if is_same n x then Ok true else eq_rl x n) xs
  | _ => Raise TypeError
  end = py_in n a.
Proof.
  destruct a; simpl; try reflexivity;
    apply first_true_ext, Forall_forall; intros x _; unfold eq_item, py_eq;
    rewrite (proj1 (eq_swap x n)); reflexivity.
Qed.

Lemma py_eq_unfold (a b : value) : py_eq a b = dispatch_eq a b.
Proof.
  unfold py_eq, dispatch_eq.
  destruct a; simpl; try reflexivity;
    destruct b; simpl; try reflexivity;
    try (unfold Contains.__eq__; simpl; rewrite <- py_in_reflected; reflexivity).
  all: apply first_true_ext, Forall_forall; intros x _; unfold eq_item;
    rewrite py_eq_flip; reflexivity.
Qed.


Lemma py_repr_Any (o : nat) (c : value) :
  py_repr (VAny o c) = Any.__repr__ (Any.Make o c).
Proof.
  unfold Any.__repr__, py_format; simpl.
  destruct c as [| | | |xs|xs|t|o' c|o' n|o' ms]; try reflexivity.
  destruct t; reflexivity.
Qed.

Lemma py_repr_Contains (o : nat) (n : value) :
  py_repr (VContains o n) = Contains.__repr__ (Contains.Make o n).
Proof.
  unfold Contains.__repr__, py_format; simpl.
  destruct n as [| | | |xs|xs|t|o' c|o' n|o' ms]; reflexivity.
Qed.

Lemma py_repr_AnyOf (o : nat) (ms : list value) :
  py_repr (VAnyOf o ms) = AnyOf.__repr__ (AnyOf.Make o ms).
Proof.
  unfold AnyOf.__repr__, repr_set; simpl.
  destruct (map_result py_repr ms); reflexivity.
Qed.

Example repr_examples :
  py_repr (VList [VInt 1; VStr "ab"; VTuple [VInt (-2)]; VNone; VType TInt])
  = Ok "[1, 'ab', (-2,), None, <type 'int'>]"
  /\ repr_str "it's" = String dquote_char (append "it's" (String dquote_char ""))
  /\ repr_str (String (ascii_of_nat 10) (String (ascii_of_nat 200) ""))
     = append "'" (String backslash_char
                    (append "n" (String backslash_char "xc8'"))).
Proof. vm_compute. repeat split. Qed.

(* ================================================================== *)
(** ** The class hierarchy *)

Lemma pytype_eqb_eq (t u : pytype) : pytype_eqb t u = true <-> t = u.
Proof. split; [destruct t, u; simpl; congruence | intros ->; destruct u; reflexivity]. Qed.

Lemma mro_base (t : pytype) :
  mro t = t :: match base t with Some b => mro b | None => [] end.
Proof. destruct t; reflexivity. Qed.

Lemma issubclass_refl (t : pytype) : issubclass t t = true.
Proof. destruct t; reflexivity. Qed.

Lemma issubclass_base (t b u : pytype) :
  base t = Some b -> issubclass b u = true -> issubclass t u = true.
Proof.
  unfold issubclass. intros Hb H. rewrite mro_base, Hb. simpl.
  rewrite H. apply orb_true_r.
Qed.

(** [issubclass] decides the closure of [base]. *)
Lemma issubclass_spec (t u : pytype) :
  issubclass t u = true <-> subclass_of t u.
Proof.
  split.
  - unfold issubclass. rewrite existsb_exists.
    intros [x [Hin Heq]]. apply pytype_eqb_eq in Heq. subst x.
    assert (H : forall n t, In u (mro t) -> (length (mro t) <= n)%nat -> subclass_of t u).
    { clear. induction n as [|n IH]; intros t Hin Hlen.
      - destruct t; simpl in Hlen; lia.
      - rewrite mro_base in Hin, Hlen. destruct Hin as [<-|Hin]; [apply sub_refl|].
        destruct (base t) as [b|] eqn:Hb; [|contradiction].
        apply sub_base with b; [exact Hb|].
        apply IH; [exact Hin|simpl in Hlen; lia]. }
    apply (H (length (mro t))); [exact Hin|lia].
  - induction 1 as [t|t b u Hb _ IH].
    + apply issubclass_refl.
    + eapply issubclass_base; eassumption.
Qed.

Lemma issubclass_object (t : pytype) : issubclass t TObject = true.
Proof. destruct t; reflexivity. Qed.

(* ================================================================== *)
(** ** isinstance never fails on a class or a tuple of classes *)

Lemma isinstance_total (v cls : value) :
  is_classinfo cls = true -> exists b, isinstance v cls = Ok b.
Proof.
  induction cls as [| | | |xs IH|xs IH|t|o c IH|o n IH|o ms IH] using value_ind';
    simpl; try discriminate.
  - induction IH as [|c r Hc _ IHr]; simpl; intros H.
    + eauto.
    + apply andb_true_iff in H. destruct H as [H1 H2].
      destruct (Hc H1) as [b Hb]. rewrite Hb. simpl.
      destruct b; eauto.
  - eauto.
Qed.

(** The answer of [isinstance] is a function of the candidate's class. *)
Lemma isinstance_by_type (v w cls : value) :
  type_of v = type_of w -> isinstance v cls = isinstance w cls.
Proof.
  intros Hty.
  induction cls as [| | | |xs IH|xs IH|t|o c IH|o n IH|o ms IH] using value_ind';
    simpl; try reflexivity.
  - induction IH as [|c r Hc _ IHr]; simpl; [reflexivity|].
    rewrite Hc, IHr. reflexivity.
  - rewrite Hty. reflexivity.
Qed.

(* ================================================================== *)
(** ** Sets *)

Lemma hkey_eqb_eq (j k : hkey) : hkey_eqb j k = true <-> j = k.
Proof.
  revert k.
  induction j as [|m|s|js IH|t|o] using hkey_ind'; intros [|n|s'|ks|u|o']; simpl;
    try (split; [discriminate|congruence]); try tauto.
  - rewrite Z.eqb_eq. split; congruence.
  - rewrite String.eqb_eq. split; congruence.
  - revert ks. induction IH as [|a r Ha _ IHr]; intros [|b ks];
      try (split; [discriminate|congruence]); try tauto.
    rewrite andb_true_iff, Ha. specialize (IHr ks).
    split.
    + intros [-> H]. apply IHr in H. congruence.
    + intros H. injection H as -> ->. split; [reflexivity|].
      apply IHr. reflexivity.
  - rewrite pytype_eqb_eq. split; congruence.
  - rewrite Nat.eqb_eq. split; congruence.
Qed.

Lemma has_key_spec (k : hkey) (e : value) :
  has_key k e = true <-> py_hash e = Ok k.
Proof.
  unfold has_key. destruct (py_hash e) as [k'|x].
  - rewrite hkey_eqb_eq. split; congruence.
  - split; discriminate.
Qed.

Lemma keys_of_spec (k : hkey) (ms : list value) :
  In k (keys_of ms) <-> exists e, In e ms /\ py_hash e = Ok k.
Proof.
  unfold keys_of. rewrite in_flat_map. split; intros [e [He H]]; exists e; split; auto.
  - destruct (py_hash e) as [k'|]; simpl in H; [|contradiction].
    destruct H as [->|[]]. reflexivity.
  - rewrite H. left. reflexivity.
Qed.

Lemma existsb_has_key (k : hkey) (ms : list value) :
  existsb (has_key k) ms = true <-> In k (keys_of ms).
Proof.
  rewrite existsb_exists, keys_of_spec.
  split; intros [e [He H]]; exists e; split; auto; apply has_key_spec; exact H.
Qed.

Lemma keys_of_app (ms ns : list value) :
  keys_of (ms ++ ns) = keys_of ms ++ keys_of ns.
Proof. unfold keys_of. apply flat_map_app. Qed.

Lemma set_contains_true (x : value) (ms : list value) :
  set_contains x ms = Ok true <-> exists k, py_hash x = Ok k /\ In k (keys_of ms).
Proof.
  unfold set_contains. destruct (py_hash x) as [k|e]; simpl.
  - split.
    + intros H. injection H as H. exists k. split; [reflexivity|].
      apply existsb_has_key. exact H.
    + intros [k' [Hk H]]. injection Hk as <-.
      apply existsb_has_key in H. rewrite H. reflexivity.
  - split; [discriminate|intros [k [H _]]; discriminate].
Qed.

Lemma set_contains_raises (x : value) (ms : list value) :
  hashable x = false -> set_contains x ms = Raise TypeError.
Proof.
  unfold hashable, set_contains. destruct (py_hash x) as [k|[]]; simpl; congruence.
Qed.

Lemma set_contains_total (x : value) (ms : list value) :
  hashable x = true -> exists b, set_contains x ms = Ok b.
Proof.
  unfold hashable, set_contains. destruct (py_hash x) as [k|e]; simpl; [eauto|discriminate].
Qed.

(** What [s.add(x)] does to the keys of [s]. *)
Lemma set_add_spec (ms ms' : list value) (x : value) :
  set_add ms x = Ok ms' ->
  exists k, py_hash x = Ok k /\
    (forall j, In j (keys_of ms') <-> In j (keys_of ms) \/ j = k) /\
    (NoDup (keys_of ms) -> NoDup (keys_of ms')) /\
    (Forall (fun e => hashable e = true) ms ->
     Forall (fun e => hashable e = true) ms').
Proof.
  unfold set_add. destruct (py_hash x) as [k|e] eqn:Hk; simpl; [|discriminate].
  intros H. injection H as <-. exists k. split; [reflexivity|].
  destruct (existsb (has_key k) ms) eqn:Hex.
  - apply existsb_has_key in Hex. repeat split; auto.
    intros [H| ->]; auto.
  - assert (Hnot : ~ In k (keys_of ms)).
    { intros H. apply existsb_has_key in H. congruence. }
    assert (Hx : keys_of [x] = [k]).
    { unfold keys_of. simpl. rewrite Hk. reflexivity. }
    rewrite keys_of_app, Hx. repeat split.
    + rewrite in_app_iff. simpl. intuition.
    + rewrite in_app_iff. simpl. intuition.
    + intros Hnd. apply NoDup_app; [exact Hnd|repeat constructor; simpl; tauto|].
      intros j Hj [<-|[]]. contradiction.
    + intros Hall. apply Forall_app. split; [exact Hall|].
      constructor; [|constructor]. unfold hashable. rewrite Hk. reflexivity.
Qed.

Lemma keys_of_cons (x : value) (k : hkey) (rest : list value) :
  py_hash x = Ok k -> keys_of (x :: rest) = k :: keys_of rest.
Proof. intros H. unfold keys_of. simpl. rewrite H. reflexivity. Qed.

(** What [set(items)] holds: the keys of the items, each once. *)
Lemma set_fill_spec (items ms ms' : list value) :
  set_fill ms items = Ok ms' ->
  (forall j, In j (keys_of ms') <-> In j (keys_of ms) \/ In j (keys_of items)) /\
  (NoDup (keys_of ms) -> NoDup (keys_of ms')) /\
  (Forall (fun e => hashable e = true) ms ->
   Forall (fun e => hashable e = true) ms').
Proof.
  revert ms. induction items as [|x rest IH]; intros ms H; simpl in H.
  - injection H as <-. repeat split; auto. intros [H|[]]. exact H.
  - destruct (set_add ms x) as [ms1|e] eqn:Hadd; simpl in H; [|discriminate].
    destruct (set_add_spec _ _ _ Hadd) as [k [Hk [Hin [Hnd Hall]]]].
    destruct (IH _ H) as [Hin' [Hnd' Hall']].
    rewrite (keys_of_cons _ _ rest Hk).
    repeat split; auto.
    + intros Hj. apply Hin' in Hj. rewrite Hin in Hj. simpl. intuition.
    + intros Hj. apply Hin'. rewrite Hin. simpl in Hj. intuition.
Qed.

Lemma set_fill_total (items ms : list value) :
  Forall (fun e => hashable e = true) items ->
  exists ms', set_fill ms items = Ok ms'.
Proof.
  intros H. revert ms. induction H as [|x rest Hx _ IH]; simpl; intros ms.
  - eauto.
  - unfold set_add. unfold hashable in Hx.
    destruct (py_hash x) as [k|e]; simpl in *; [|discriminate].
    apply IH.
Qed.

Lemma set_fill_raises (items ms : list value) :
  Exists (fun e => hashable e = false) items ->
  set_fill ms items = Raise TypeError.
Proof.
  intros H. revert ms. induction H as [x rest Hx|x rest _ IH]; simpl; intros ms.
  - unfold set_add. unfold hashable in Hx.
    destruct (py_hash x) as [k|[]]; simpl in *; [discriminate|reflexivity].
  - destruct (set_add ms x) as [ms1|[]]; simpl; [apply IH|reflexivity].
Qed.

(* ================================================================== *)
(** ** Keys and equality *)

Lemma py_eq_tuples (xs ys : list value) :
  py_eq (VTuple xs) (VTuple ys) = items_eq eq_item xs ys.
Proof. rewrite py_eq_unfold. reflexivity. Qed.

Lemma py_eq_lists (xs ys : list value) :
  py_eq (VList xs) (VList ys)
  = if Nat.eqb (length xs) (length ys) then items_eq eq_item xs ys else Ok false.
Proof. rewrite py_eq_unfold. reflexivity. Qed.

Ltac other_key Hx :=
  simpl in Hx; try discriminate Hx;
  try (match type of Hx with
       | context [map_result py_hash ?l] =>
           destruct (map_result py_hash l); discriminate Hx
       end).

(** Filing by key loses nothing: an element whose key is the key of the
    candidate is the candidate itself or equal to it, which is what a
    set asks of an element with the candidate's hash. *)
Lemma same_key_eq_item (e : value) :
  forall x k, py_hash e = Ok k -> py_hash x = Ok k -> eq_item e x = Ok true.
Proof.
  induction e as [|b|n|s|xs IH|xs IH|t|o c IH|o n IH|o ms IH] using value_ind';
    intros x k He Hx; simpl in He; try discriminate He.
  - injection He as <-. destruct x; other_key Hx. reflexivity.
  - injection He as <-. destruct x; other_key Hx;
      injection Hx as Hx; unfold eq_item, py_eq; simpl; rewrite Hx, Z.eqb_refl;
      reflexivity.
  - injection He as <-. destruct x; other_key Hx;
      injection Hx as Hx; unfold eq_item, py_eq; simpl; rewrite Hx, Z.eqb_refl;
      reflexivity.
  - injection He as <-. destruct x; other_key Hx.
    injection Hx as ->. unfold eq_item, py_eq; simpl. rewrite String.eqb_refl.
    reflexivity.
  - destruct (map_result py_hash xs) as [ks|] eqn:Hks; [|discriminate He].
    injection He as <-. destruct x as [| | | |ys|ys| | | |]; other_key Hx.
    simpl in Hx.
    destruct (map_result py_hash ys) as [ks'|] eqn:Hks'; [|discriminate Hx].
    injection Hx as ->.
    unfold eq_item. simpl is_same. cbv iota. rewrite py_eq_tuples.
    revert ys ks Hks Hks'.
    induction IH as [|a r Ha _ IHr]; intros ys ks Hks Hks'; simpl in Hks.
    + injection Hks as <-. destruct ys as [|y ys]; [reflexivity|].
      simpl in Hks'. destruct (py_hash y); simpl in Hks'; [|discriminate].
      destruct (map_result py_hash ys); discriminate.
    + destruct (py_hash a) as [ka|] eqn:Hka; simpl in Hks; [|discriminate].
      destruct (map_result py_hash r) as [kr|] eqn:Hkr; simpl in Hks; [|discriminate].
      injection Hks as <-.
      destruct ys as [|y ys]; simpl in Hks'; [discriminate|].
      destruct (py_hash y) as [ky|] eqn:Hky; simpl in Hks'; [|discriminate].
      destruct (map_result py_hash ys) as [kys|] eqn:Hkys; simpl in Hks'; [|discriminate].
      injection Hks' as -> ->.
      simpl. rewrite (Ha y ka eq_refl Hky). simpl.
      apply (IHr ys kr eq_refl Hkys).
  - injection He as <-. destruct x; other_key Hx.
    injection Hx as ->. unfold eq_item, py_eq; simpl.
    rewrite (proj2 (pytype_eqb_eq t t) eq_refl). reflexivity.
  - injection He as <-. destruct x; other_key Hx;
      injection Hx as ->; unfold eq_item, is_same; simpl; rewrite Nat.eqb_refl;
      reflexivity.
  - injection He as <-. destruct x; other_key Hx;
      injection Hx as ->; unfold eq_item, is_same; simpl; rewrite Nat.eqb_refl;
      reflexivity.
  - injection He as <-. destruct x; other_key Hx;
      injection Hx as ->; unfold eq_item, is_same; simpl; rewrite Nat.eqb_refl;
      reflexivity.
Qed.

Lemma is_same_plain (a b : value) : plain a = true -> is_same a b = false.
Proof. destruct a; simpl; try discriminate; reflexivity. Qed.

(** Among values without matchers inside, equal values share a key, as
    Python asks of [__hash__]: a lookup by key finds every equal
    element. *)
Lemma plain_eq_same_key (e : value) :
  forall x k k',
    plain e = true -> plain x = true ->
    py_hash e = Ok k -> py_hash x = Ok k' ->
    py_eq e x = Ok true -> k = k'.
Proof.
  induction e as [|b|n|s|xs IH|xs IH|t|o c IH|o n IH|o ms IH] using value_ind';
    intros x k k' Pe Px He Hx Heq; simpl in He, Pe; try discriminate.
  - destruct x; simpl in Px; try discriminate; unfold py_eq in Heq;
      simpl in Heq, Hx; try discriminate. congruence.
  - destruct x; simpl in Px; try discriminate; unfold py_eq in Heq;
      simpl in Heq, Hx; try discriminate;
      injection Heq as Heq; apply Z.eqb_eq in Heq; congruence.
  - destruct x; simpl in Px; try discriminate; unfold py_eq in Heq;
      simpl in Heq, Hx; try discriminate;
      injection Heq as Heq; apply Z.eqb_eq in Heq; congruence.
  - destruct x; simpl in Px; try discriminate; unfold py_eq in Heq;
      simpl in Heq, Hx; try discriminate.
    injection Heq as Heq. apply String.eqb_eq in Heq. congruence.
  - destruct x as [| | | |ys|ys| | | |]; simpl in Px; try discriminate;
      try (unfold py_eq in Heq; simpl in Heq; discriminate).
    rewrite py_eq_tuples in Heq. simpl in Hx.
    destruct (map_result py_hash xs) as [ks|] eqn:Hks; [|discriminate He].
    destruct (map_result py_hash ys) as [ks'|] eqn:Hks'; [|discriminate Hx].
    injection He as <-. injection Hx as <-. f_equal.
    revert ys ks ks' Pe Px Hks Hks' Heq.
    induction IH as [|a r Ha _ IHr]; intros ys ks ks' Pe Px Hks Hks' Heq.
    + destruct ys; simpl in Heq; [|discriminate].
      simpl in Hks, Hks'. congruence.
    + destruct ys as [|y ys]; simpl in Heq; [discriminate|].
      simpl in Pe, Px. apply andb_true_iff in Pe, Px.
      destruct Pe as [Pa Pr], Px as [Py Pys].
      unfold eq_item in Heq at 1. rewrite (is_same_plain a y Pa) in Heq.
      destruct (py_eq a y) as [[|]|] eqn:Hay; simpl in Heq; try discriminate.
      simpl in Hks, Hks'.
      destruct (py_hash a) as [ka|] eqn:Hka; simpl in Hks; [|discriminate].
      destruct (map_result py_hash r) as [kr|] eqn:Hkr; simpl in Hks; [|discriminate].
      destruct (py_hash y) as [ky|] eqn:Hky; simpl in Hks'; [|discriminate].
      destruct (map_result py_hash ys) as [kys|] eqn:Hkys; simpl in Hks'; [|discriminate].
      injection Hks as <-. injection Hks' as <-.
      rewrite (Ha y ka ky Pa Py eq_refl Hky Hay).
      rewrite (IHr ys kr kys Pr Pys eq_refl Hkys Heq). reflexivity.
  - destruct x; simpl in Px; try discriminate; unfold py_eq in Heq;
      simpl in Heq, Hx; try discriminate.
    injection Heq as Heq. apply pytype_eqb_eq in Heq. congruence.
Qed.

(* ================================================================== *)
(** ** Membership *)

Lemma prefix_spec (p s : string) :
  String.prefix p s = true <-> exists post, s = append p post.
Proof.
  revert s. induction p as [|a p IH]; intros [|b s]; simpl.
  - split; [intros _; exists EmptyString; reflexivity|reflexivity].
  - split; [intros _; exists (String b s); reflexivity|reflexivity].
  - split; [discriminate|intros [post H]; discriminate].
  - destruct (Ascii.ascii_dec a b) as [->|Hne].
    + rewrite IH. split; intros [post H]; exists post; congruence.
    + split; [discriminate|intros [post H]; congruence].
Qed.

(** [is_substring p s] holds exactly when [p] occurs somewhere in [s]. *)
Lemma is_substring_spec (p s : string) :
  is_substring p s = true <-> exists pre post, s = append pre (append p post).
Proof.
  induction s as [|c s IH]; cbn [is_substring].
  - rewrite orb_false_r, prefix_spec. split.
    + intros [post H]. exists EmptyString, post. exact H.
    + intros [pre [post H]]. destruct pre; simpl in H; [eauto|discriminate].
  - rewrite orb_true_iff, prefix_spec, IH. split.
    + intros [[post H]|[pre [post H]]].
      * exists EmptyString, post. exact H.
      * exists (String c pre), post. simpl. congruence.
    + intros [pre [post H]]. destruct pre as [|d pre]; simpl in H.
      * left. eauto.
      * right. exists pre, post. congruence.
Qed.

(** The loop of [__contains__] answers true exactly when some item
    passes and every item before it was tested and failed. *)
Lemma first_true_spec {A : Type} (f : A -> result bool) (l : list A) :
  first_true f l = Ok true <->
  exists l1 y l2, l = l1 ++ y :: l2 /\ f y = Ok true /\
                  Forall (fun z => f z = Ok false) l1.
Proof.
  induction l as [|x r IH]; simpl.
  - split; [discriminate|].
    intros [l1 [y [l2 [H _]]]]. destruct l1; discriminate.
  - split.
    + destruct (f x) as [[|]|e] eqn:Hx; simpl; try discriminate.
      * intros _. exists [], x, r. auto.
      * intros H. apply IH in H. destruct H as [l1 [y [l2 [-> [Hy Hl1]]]]].
        exists (x :: l1), y, l2. auto.
    + intros [l1 [y [l2 [H [Hy Hl1]]]]].
      destruct l1 as [|z l1]; simpl in H; injection H as -> ->.
      * rewrite Hy. reflexivity.
      * inversion Hl1 as [|? ? Hz Hrest]; subst. rewrite Hz. simpl.
        apply IH. exists l1, y, l2. auto.
Qed.

Lemma py_in_unsupported (n c : value) :
  supports_in c = false -> py_in n c = Raise TypeError.
Proof. destruct c; simpl; congruence. Qed.

(* ================================================================== *)
(** ** The operator and the methods *)

Lemma py_eq_Any (o : nat) (c v : value) :
  py_eq (VAny o c) v = Any.__eq__ (Any.Make o c) v.
Proof. rewrite py_eq_unfold. reflexivity. Qed.

Lemma py_eq_Contains (o : nat) (n v : value) :
  py_eq (VContains o n) v = Contains.__eq__ (Contains.Make o n) v.
Proof. rewrite py_eq_unfold. reflexivity. Qed.

Lemma py_eq_AnyOf (o : nat) (ms : list value) (v : value) :
  py_eq (VAnyOf o ms) v = AnyOf.__eq__ (AnyOf.Make o ms) v.
Proof. rewrite py_eq_unfold. reflexivity. Qed.

(** A matcher on the right of a built-in value: the value declines, and
    the matcher's [__eq__] is called with the value as [other]. *)
Lemma py_eq_reflected (v m : value) :
  is_matcher v = false -> is_matcher m = true ->
  Some (py_eq v m) = method_eq m v.
Proof.
  intros Hv Hm. rewrite py_eq_unfold. unfold dispatch_eq.
  destruct v; try discriminate; destruct m; try discriminate; reflexivity.
Qed.

Lemma py_eq_direct (m v : value) :
  is_matcher m = true -> Some (py_eq m v) = method_eq m v.
Proof.
  intros Hm. rewrite py_eq_unfold. unfold dispatch_eq.
  destruct m; try discriminate; reflexivity.
Qed.

(** When the left operand declines, the right operand's [__eq__] is
    called with the operands swapped. *)
Lemma py_eq_declined (v m : value) :
  declines_eq v m = true -> is_matcher m = true ->
  Some (py_eq v m) = method_eq m v.
Proof.
  intros Hv Hm. rewrite py_eq_unfold. unfold dispatch_eq.
  unfold declines_eq in Hv. destruct (method_eq v m); [discriminate Hv|].
  destruct m; try discriminate Hm; reflexivity.
Qed.

Lemma py_ne_declined (v m : value) :
  declines_ne v m = true -> is_matcher m = true ->
  Some (py_ne v m) = method_ne m v.
Proof.
  intros Hv Hm. unfold py_ne.
  unfold declines_ne in Hv. destruct (method_ne v m); [discriminate Hv|].
  destruct m; try discriminate Hm; reflexivity.
Qed.

Lemma py_ne_direct (m v : value) :
  is_matcher m = true -> Some (py_ne m v) = method_ne m v.
Proof.
  intros Hm. unfold py_ne. destruct m; try discriminate; reflexivity.
Qed.

(** A matcher never declines. *)
Lemma matcher_answers (m v : value) :
  is_matcher m = true -> declines_eq m v = false /\ declines_ne m v = false.
Proof. destruct m; try discriminate; split; reflexivity. Qed.

(* ================================================================== *)
(** ** Any *)

Example Any_docstring :
  let anystring := Any.__init__ 0 (Some (VType TBasestring)) in
  Any.__eq__ (Any.__init__ 0 None) (VStr "hello") = Ok true /\
  Any.__eq__ (Any.__init__ 0 None) (VInt 100) = Ok true /\
  Any.__eq__ anystring (VStr "hello") = Ok true /\
  py_ne (Any.to_value anystring) (VList [VStr "hello"; VStr "world"]) = Ok true /\
  py_eq (VStr "monkey") (Any.to_value anystring) = Ok true /\
  py_eq (VTuple [VStr "bye bye"; VStr "world"])
        (VTuple [VStr "bye bye"; Any.to_value (Any.__init__ 0 None)]) = Ok true.
Proof. vm_compute. repeat split. Qed.

(** C1. [Any() == v] is true for every value [v].  [Any(T) == v] is true
    exactly when the class of [v] is [T] or a subclass of [T], and false
    exactly when it is not; the operator [==] with the matcher on the
    left gives what the method gives. *)
Theorem Any_eq_matches_class :
  (forall o v,
      Any.__eq__ (Any.__init__ o None) v = Ok true /\
      py_eq (Any.to_value (Any.__init__ o None)) v = Ok true) /\
  (forall o T v,
      (Any.__eq__ (Any.__init__ o (Some (VType T))) v = Ok true
       <-> subclass_of (type_of v) T) /\
      (Any.__eq__ (Any.__init__ o (Some (VType T))) v = Ok false
       <-> ~ subclass_of (type_of v) T) /\
      py_eq (Any.to_value (Any.__init__ o (Some (VType T)))) v
      = Any.__eq__ (Any.__init__ o (Some (VType T))) v).
Proof.
  split.
  - intros o v. unfold Any.to_value. rewrite py_eq_Any.
    unfold Any.__eq__; simpl. rewrite issubclass_object. auto.
  - intros o T v. unfold Any.to_value. rewrite py_eq_Any.
    unfold Any.__eq__; simpl. rewrite <- issubclass_spec.
    destruct (issubclass (type_of v) T); repeat split; congruence.
Qed.

(** C8. With a class, or a tuple of classes, as the expected type (or
    with the default), [Any.__eq__] returns a boolean for every
    candidate and raises nothing, under [==] as well; the answer depends
    on the class of the candidate alone, so nothing inside the candidate
    is ever looked at. *)
Theorem Any_eq_never_raises (o : nat) (cls : option value) (v : value) :
  match cls with Some c => is_classinfo c = true | None => True end ->
  raises (Any.__eq__ (Any.__init__ o cls) v) = false /\
  raises (py_eq (Any.to_value (Any.__init__ o cls)) v) = false /\
  (forall w, type_of w = type_of v ->
             Any.__eq__ (Any.__init__ o cls) w = Any.__eq__ (Any.__init__ o cls) v).
Proof.
  intros H.
  assert (Hc : is_classinfo (Any._cls (Any.__init__ o cls)) = true).
  { destruct cls; [exact H|reflexivity]. }
  unfold Any.to_value. rewrite py_eq_Any. unfold Any.__eq__.
  destruct (isinstance_total v _ Hc) as [b Hb]. simpl in *. rewrite Hb.
  repeat split. intros w Hw. rewrite <- Hb. apply isinstance_by_type. exact Hw.
Qed.

Lemma Any_eq_never_raises_witness :
  raises (Any.__eq__ (Any.__init__ 0 (Some (VTuple [VType TInt; VType TStr])))
                     (VList [VList []; VNone])) = false.
Proof.
  apply (Any_eq_never_raises 0 (Some (VTuple [VType TInt; VType TStr]))
           (VList [VList []; VNone])).
  reflexivity.
Defined.

(* ================================================================== *)
(** ** __ne__ *)

(** C6. For each of the three matchers, when [__eq__] returns [b] for a
    candidate, [__ne__] returns [not b] for it; when [__eq__] raises,
    [__ne__] raises the same.  The same holds of the operators: with a
    matcher [m] on the left, [m != v] is [not (m == v)]. *)
Theorem ne_negates_eq (other : value) :
  (forall self,
      (forall b, Any.__eq__ self other = Ok b ->
                 Any.__ne__ self other = Ok (negb b)) /\
      (forall e, Any.__eq__ self other = Raise e ->
                 Any.__ne__ self other = Raise e)) /\
  (forall self,
      (forall b, Contains.__eq__ self other = Ok b ->
                 Contains.__ne__ self other = Ok (negb b)) /\
      (forall e, Contains.__eq__ self other = Raise e ->
                 Contains.__ne__ self other = Raise e)) /\
  (forall self,
      (forall b, AnyOf.__eq__ self other = Ok b ->
                 AnyOf.__ne__ self other = Ok (negb b)) /\
      (forall e, AnyOf.__eq__ self other = Raise e ->
                 AnyOf.__ne__ self other = Raise e)) /\
  (forall m, is_matcher m = true -> py_ne m other = py_not (py_eq m other)).
Proof.
  split; [|split; [|split]].
  - intros self. unfold Any.__ne__, py_not.
    split; intros x Hx; rewrite Hx; reflexivity.
  - intros self. unfold Contains.__ne__, py_not.
    split; intros x Hx; rewrite Hx; reflexivity.
  - intros self. unfold AnyOf.__ne__, py_not.
    split; intros x Hx; rewrite Hx; reflexivity.
  - intros m Hm. rewrite py_eq_unfold. unfold py_ne, dispatch_eq.
    destruct m; try discriminate Hm; reflexivity.
Qed.

Lemma ne_negates_eq_witness :
  Contains.__ne__ (Contains.__init__ 0 (VStr "ello")) (VStr "bye bye") = Ok true /\
  py_ne (VAnyOf 1 [VInt 1]) (VStr "bye bye")
  = py_not (py_eq (VAnyOf 1 [VInt 1]) (VStr "bye bye")).
Proof.
  destruct (ne_negates_eq (VStr "bye bye")) as [_ [H [_ Hop]]].
  split.
  - apply (proj1 (H (Contains.__init__ 0 (VStr "ello"))) false).
    reflexivity.
  - apply (Hop (VAnyOf 1 [VInt 1])). reflexivity.
Defined.

(* ================================================================== *)
(** ** Contains *)

Example Contains_docstring :
  let contains_five := Contains.__init__ 0 (VInt 5) in
  let contains_ello := Contains.__init__ 1 (VStr "ello") in
  let range n := VList (map (fun i => VInt (Z.of_nat i)) (seq 0 n)) in
  Contains.__eq__ contains_five (range 10%nat) = Ok true /\
  Contains.__ne__ contains_five (range 4%nat) = Ok true /\
  Contains.__eq__ contains_ello (VStr "hello") = Ok true /\
  Contains.__ne__ contains_ello (VStr "bye bye") = Ok true /\
  py_eq (VStr "uncle monkey") (VContains 2 (VStr "monkey")) = Ok true.
Proof. vm_compute. repeat split. Qed.

(** C2. [Contains(x) == c] is the membership test of [c] applied to [x]:
    for two strings it is true exactly when [x] occurs in [c]; for a list
    or a tuple exactly when some item is [x] or equal to [x], the items
    before it having been compared and found different; and a candidate
    without a membership test makes it raise [TypeError], under [==]
    too, as in [Contains(1) == 5]. *)
Theorem Contains_eq_is_membership :
  (forall o p s,
      Contains.__eq__ (Contains.__init__ o (VStr p)) (VStr s) = Ok true
      <-> exists pre post, s = append pre (append p post)) /\
  (forall o x ys c, c = VList ys \/ c = VTuple ys ->
      (Contains.__eq__ (Contains.__init__ o x) c = Ok true
       <-> exists l1 y l2, ys = l1 ++ y :: l2 /\ eq_item x y = Ok true /\
                           Forall (fun z => eq_item x z = Ok false) l1)) /\
  (forall o x c, supports_in c = false ->
      Contains.__eq__ (Contains.__init__ o x) c = Raise TypeError /\
      py_eq (Contains.to_value (Contains.__init__ o x)) c = Raise TypeError) /\
  (forall o x c,
      py_eq (Contains.to_value (Contains.__init__ o x)) c
      = Contains.__eq__ (Contains.__init__ o x) c) /\
  (forall o, Contains.__eq__ (Contains.__init__ o (VInt 1)) (VInt 5)
             = Raise TypeError).
Proof.
  split; [|split; [|split; [|split]]].
  - intros o p s. rewrite <- is_substring_spec.
    unfold Contains.__eq__; simpl.
    destruct (is_substring p s); split; congruence.
  - intros o x ys c [-> | ->]; apply first_true_spec.
  - intros o x c H. unfold Contains.to_value. rewrite py_eq_Contains.
    split; apply py_in_unsupported; exact H.
  - intros o x c. unfold Contains.to_value. apply py_eq_Contains.
  - intros o. reflexivity.
Qed.

Lemma Contains_eq_is_membership_witness :
  Contains.__eq__ (Contains.__init__ 0 (VStr "a")) VNone = Raise TypeError /\
  (Contains.__eq__ (Contains.__init__ 0 (VInt 2)) (VList [VInt 1; VInt 2]) = Ok true
   <-> exists l1 y l2, [VInt 1; VInt 2] = l1 ++ y :: l2 /\
                       eq_item (VInt 2) y = Ok true /\
                       Forall (fun z => eq_item (VInt 2) z = Ok false) l1).
Proof.
  destruct Contains_eq_is_membership as [_ [Hseq [Hno _]]].
  split.
  - apply (Hno 0%nat (VStr "a") VNone). reflexivity.
  - apply (Hseq 0%nat (VInt 2) [VInt 1; VInt 2]). left. reflexivity.
Defined.

(* ================================================================== *)
(** ** Either side of [==] *)

(** C3, as stated, fails for a candidate that is itself a matcher: each
    operand answers for itself when it stands on the left, so
    [Any() == Any(int)] is true and [Any(int) == Any()] is false, though
    neither comparison raises. *)
Lemma eq_not_symmetric_between_matchers :
  ~ (forall m v,
        is_matcher m = true ->
        raises (py_eq m v) = false -> raises (py_eq v m) = false ->
        py_eq m v = py_eq v m).
Proof.
  intros H.
  specialize (H (Any.to_value (Any.__init__ 0 None))
                (Any.to_value (Any.__init__ 1 (Some (VType TInt))))
                eq_refl eq_refl eq_refl).
  vm_compute in H. discriminate H.
Qed.

(** C3, amended.  For a matcher [m] and a candidate [v] whose class
    declines the comparison [v == m] (it has no [__eq__] that answers
    for the matcher, as is the case of [None], numbers, strings, lists,
    tuples and class objects), [m == v] and [v == m] are the same call,
    the [__eq__] of [m] with [v] as [other]: they return the same
    boolean or raise the same exception.  A candidate whose class
    answers [==] itself is asked first when it stands on the left. *)
Theorem eq_either_side (m v : value) :
  is_matcher m = true -> declines_eq v m = true ->
  py_eq m v = py_eq v m /\
  method_eq m v = Some (py_eq m v) /\
  method_eq m v = Some (py_eq v m).
Proof.
  intros Hm Hv.
  pose proof (py_eq_direct m v Hm) as Hd.
  pose proof (py_eq_declined v m Hv Hm) as Hr.
  repeat split; congruence.
Qed.

Lemma eq_either_side_witness :
  py_eq (VContains 0 (VStr "ello")) (VStr "hello")
  = py_eq (VStr "hello") (VContains 0 (VStr "ello")).
Proof.
  apply (eq_either_side (VContains 0 (VStr "ello")) (VStr "hello")); reflexivity.
Defined.

(* ================================================================== *)
(** ** AnyOf *)

Lemma set_fill_incl (items ms ms' : list value) :
  set_fill ms items = Ok ms' -> incl ms' (ms ++ items).
Proof.
  revert ms. induction items as [|x rest IH]; intros ms H; simpl in H.
  - injection H as <-. rewrite app_nil_r. apply incl_refl.
  - unfold set_add in H. destruct (py_hash x) as [k|e]; simpl in H; [|discriminate].
    apply IH in H. intros e He. apply H in He.
    destruct (existsb (has_key k) ms).
    + rewrite in_app_iff in *. simpl. tauto.
    + rewrite !in_app_iff in *. simpl in *. tauto.
Qed.

Lemma AnyOf_init_single_sequence (o : nat) (xs : list value) (arg : value) :
  arg = VList xs \/ arg = VTuple xs ->
  AnyOf.__init__ o [arg]
  = s <- set_of_items xs ;; Ok (AnyOf.Make o s).
Proof. intros [-> | ->]; reflexivity. Qed.

(** C4. [AnyOf([1, 2, 2, 3])] stores the three distinct items and
    matches [2].  In general a single list or tuple of hashable items
    is unpacked into the set: every stored element is one of the items,
    every item's key is stored, no key is stored twice, and the matcher
    equals exactly the values filed under the key of one of the items. *)
Theorem AnyOf_init_iterable :
  (forall o,
      AnyOf.__init__ o [VList [VInt 1; VInt 2; VInt 2; VInt 3]]
      = Ok (AnyOf.Make o [VInt 1; VInt 2; VInt 3]) /\
      length (AnyOf._set (AnyOf.Make o [VInt 1; VInt 2; VInt 3])) = 3%nat /\
      AnyOf.__eq__ (AnyOf.Make o [VInt 1; VInt 2; VInt 3]) (VInt 2) = Ok true /\
      py_eq (VAnyOf o [VInt 1; VInt 2; VInt 3]) (VInt 2) = Ok true) /\
  (forall o xs arg,
      arg = VList xs \/ arg = VTuple xs ->
      Forall (fun e => hashable e = true) xs ->
      exists m,
        AnyOf.__init__ o [arg] = Ok m /\
        incl (AnyOf._set m) xs /\
        NoDup (keys_of (AnyOf._set m)) /\
        (forall k, In k (keys_of (AnyOf._set m)) <-> In k (keys_of xs)) /\
        (forall v, AnyOf.__eq__ m v = Ok true
                   <-> exists k x, In x xs /\ py_hash x = Ok k /\ py_hash v = Ok k)).
Proof.
  split.
  - intros o. repeat split.
  - intros o xs arg Harg Hall.
    rewrite (AnyOf_init_single_sequence o xs arg Harg).
    unfold set_of_items.
    destruct (set_fill_total xs [] Hall) as [s Hs]. rewrite Hs. simpl.
    destruct (set_fill_spec _ _ _ Hs) as [Hin [Hnd _]].
    exists (AnyOf.Make o s). simpl. split; [reflexivity|].
    split; [exact (set_fill_incl _ _ _ Hs)|].
    split; [apply Hnd; constructor|].
    split.
    + intros k. rewrite Hin. simpl. tauto.
    + intros v. unfold AnyOf.__eq__; simpl. rewrite set_contains_true. split.
      * intros [k [Hk Hmem]]. apply Hin in Hmem. destruct Hmem as [[]|Hmem].
        apply keys_of_spec in Hmem. destruct Hmem as [x [Hx Hxk]].
        exists k, x. auto.
      * intros [k [x [Hx [Hxk Hvk]]]]. exists k. split; [exact Hvk|].
        apply Hin. right. apply keys_of_spec. exists x. auto.
Qed.

Lemma AnyOf_init_iterable_witness :
  exists m,
    AnyOf.__init__ 7 [VTuple [VStr "a"; VInt 1; VBool true; VStr "a"]] = Ok m /\
    incl (AnyOf._set m) [VStr "a"; VInt 1; VBool true; VStr "a"] /\
    NoDup (keys_of (AnyOf._set m)).
Proof.
  destruct (proj2 AnyOf_init_iterable 7%nat
              [VStr "a"; VInt 1; VBool true; VStr "a"]
              (VTuple [VStr "a"; VInt 1; VBool true; VStr "a"]))
    as [m [H1 [H2 [H3 _]]]].
  - right. reflexivity.
  - repeat constructor.
  - exists m. auto.
Defined.

(** C5. A single string argument is one discrete value: [AnyOf(s)]
    stores the string [s] itself, equals [s], and equals no other
    string; so [AnyOf("hello") == "hello"] is true and ["h"] does not
    match. *)
Theorem AnyOf_init_string :
  (forall o s,
      AnyOf.__init__ o [VStr s] = Ok (AnyOf.Make o [VStr s]) /\
      AnyOf.__eq__ (AnyOf.Make o [VStr s]) (VStr s) = Ok true /\
      py_eq (VAnyOf o [VStr s]) (VStr s) = Ok true /\
      (forall t, AnyOf.__eq__ (AnyOf.Make o [VStr s]) (VStr t) = Ok true <-> t = s)) /\
  (forall o,
      (m <- AnyOf.__init__ o [VStr "hello"] ;; AnyOf.__eq__ m (VStr "hello")) = Ok true /\
      (m <- AnyOf.__init__ o [VStr "hello"] ;; AnyOf.__eq__ m (VStr "h")) = Ok false).
Proof.
  split.
  - intros o s.
    assert (Heq : forall t, AnyOf.__eq__ (AnyOf.Make o [VStr s]) (VStr t)
                            = Ok (String.eqb s t || false)).
    { reflexivity. }
    split; [reflexivity|]. split; [|split].
    + rewrite Heq, String.eqb_refl. reflexivity.
    + rewrite py_eq_AnyOf, Heq, String.eqb_refl. reflexivity.
    + intros t. rewrite Heq, orb_false_r. split.
      * intros H. injection H as H. apply String.eqb_eq in H. congruence.
      * intros ->. rewrite String.eqb_refl. reflexivity.
  - intros o. split; reflexivity.
Qed.

(** C7. [AnyOf.__eq__] is membership in the stored set: true exactly
    when the candidate is hashable and an element is filed under its
    key; a boolean for every hashable candidate; [TypeError] for an
    unhashable one, under [==] as well.  [AnyOf(1, 2, 3)] equals [2],
    does not equal [4], and raises for the list [[2]]. *)
Theorem AnyOf_eq_is_set_membership :
  (forall self v,
      AnyOf.__eq__ self v = Ok true
      <-> exists k, py_hash v = Ok k /\ In k (keys_of (AnyOf._set self))) /\
  (forall self v, hashable v = true -> exists b, AnyOf.__eq__ self v = Ok b) /\
  (forall self v, hashable v = false ->
      AnyOf.__eq__ self v = Raise TypeError /\
      py_eq (AnyOf.to_value self) v = Raise TypeError) /\
  (forall o,
      AnyOf.__init__ o [VInt 1; VInt 2; VInt 3]
      = Ok (AnyOf.Make o [VInt 1; VInt 2; VInt 3]) /\
      AnyOf.__eq__ (AnyOf.Make o [VInt 1; VInt 2; VInt 3]) (VInt 2) = Ok true /\
      AnyOf.__eq__ (AnyOf.Make o [VInt 1; VInt 2; VInt 3]) (VInt 4) = Ok false /\
      AnyOf.__eq__ (AnyOf.Make o [VInt 1; VInt 2; VInt 3]) (VList [VInt 2])
      = Raise TypeError).
Proof.
  split; [|split; [|split]].
  - intros self v. apply set_contains_true.
  - intros self v. apply set_contains_total.
  - intros self v H. unfold AnyOf.to_value. rewrite py_eq_AnyOf.
    split; apply set_contains_raises; exact H.
  - intros o. repeat split.
Qed.

Lemma AnyOf_eq_is_set_membership_witness :
  AnyOf.__eq__ (AnyOf.Make 0 [VStr "a"]) (VTuple [VInt 1; VList []])
  = Raise TypeError /\
  exists b, AnyOf.__eq__ (AnyOf.Make 0 [VStr "a"]) (VTuple [VInt 1; VNone]) = Ok b.
Proof.
  destruct AnyOf_eq_is_set_membership as [_ [Htot [Hraise _]]].
  split.
  - apply (Hraise (AnyOf.Make 0 [VStr "a"]) (VTuple [VInt 1; VList []])).
    reflexivity.
  - apply (Htot (AnyOf.Make 0 [VStr "a"]) (VTuple [VInt 1; VNone])).
    reflexivity.
Defined.

(** C10. Without arguments [AnyOf()] stores the empty set, and equals
    no hashable candidate. *)
Theorem AnyOf_init_empty (o : nat) (v : value) :
  hashable v = true ->
  AnyOf.__init__ o [] = Ok (AnyOf.Make o []) /\
  AnyOf.__eq__ (AnyOf.Make o []) v = Ok false /\
  py_eq (VAnyOf o []) v = Ok false.
Proof.
  intros H. rewrite py_eq_AnyOf.
  unfold AnyOf.__eq__, set_contains; simpl.
  unfold hashable in H. destruct (py_hash v); [auto|discriminate].
Qed.

Lemma AnyOf_init_empty_witness :
  AnyOf.__eq__ (AnyOf.Make 3 []) (VStr "x") = Ok false.
Proof.
  apply (AnyOf_init_empty 3 (VStr "x")). reflexivity.
Defined.

(* ================================================================== *)
(** ** __repr__ *)

Example repr_of_matchers_examples :
  Any.__repr__ (Any.__init__ 0 None) = Ok "Any()" /\
  Any.__repr__ (Any.__init__ 0 (Some (VType TInt))) = Ok "Any(<type 'int'>)" /\
  Any.__repr__ (Any.__init__ 0 (Some (VType TBasestring)))
  = Ok "Any(<type 'basestring'>)" /\
  Any.__repr__ (Any.__init__ 0 (Some (VType TContains)))
  = Ok "Any(<class 'mockextras.matchers.Contains'>)" /\
  Contains.__repr__ (Contains.__init__ 0 (VStr "ello")) = Ok "Contains('ello')" /\
  Contains.__repr__ (Contains.__init__ 0 (VList [VInt 1; VInt 2]))
  = Ok "Contains([1, 2])" /\
  AnyOf.__repr__ (AnyOf.Make 0 [VInt 1; VInt 2]) = Ok "AnyOf(set([1, 2]))" /\
  AnyOf.__repr__ (AnyOf.Make 0 []) = Ok "AnyOf(set([]))".
Proof. vm_compute. repeat split. Qed.

(** A tuple on the right of [%] is the argument tuple of the format, so
    a needle that is a tuple is not printed as a tuple: a pair makes
    [Contains.__repr__] raise, and a 1-tuple prints as its only item. *)
Lemma Contains_repr_of_tuple_needle :
  Contains.__repr__ (Contains.__init__ 0 (VTuple [VInt 1; VInt 2]))
  = Raise TypeError /\
  Contains.__repr__ (Contains.__init__ 0 (VTuple [VInt 1])) = Ok "Contains(1)" /\
  py_repr (VTuple [VInt 1]) = Ok "(1,)" /\
  Any.__repr__ (Any.__init__ 0 (Some (VTuple [VType TInt; VType TStr])))
  = Raise TypeError.
Proof. vm_compute. repeat split. Qed.

(** C9, as stated, fails for [Any] with a class: what is printed between
    the parentheses is [str] of the class, [<type 'int'>] for [int], and
    not the name [int]. *)
Lemma Any_repr_is_not_the_type_name :
  ~ (forall o T, T <> TObject ->
        Any.__repr__ (Any.__init__ o (Some (VType T)))
        = Ok (wrap "Any(" (type_name T) ")")).
Proof.
  intros H.
  assert (Hint : TInt <> TObject) by discriminate.
  specialize (H 0%nat TInt Hint). vm_compute in H. discriminate H.
Qed.

(** C9, amended.  [Any] prints as [Any()] with the default class
    [object]; with another expected type that is not a tuple it prints
    as [Any(] [str] of the expected type [)], which for a built-in class
    named [N] reads [Any(<type 'N'>)].  [Contains] prints as
    [Contains(] [repr] of the needle [)] for a needle that is not a
    tuple, and [AnyOf] as [AnyOf(] [repr] of the set [)].  [repr] of a
    matcher value is its [__repr__]. *)
Theorem repr_of_matchers :
  (forall o,
      Any.__repr__ (Any.__init__ o None) = Ok "Any()" /\
      Any.__repr__ (Any.__init__ o (Some (VType TObject))) = Ok "Any()") /\
  (forall o cls r,
      is_object cls = false -> type_of cls <> TTuple -> py_str cls = Ok r ->
      Any.__repr__ (Any.__init__ o (Some cls)) = Ok (wrap "Any(" r ")")) /\
  (forall o T, T <> TObject ->
      Any.__repr__ (Any.__init__ o (Some (VType T)))
      = Ok (wrap "Any(" (repr_type T) ")") /\
      py_str (VType T) = Ok (repr_type T) /\
      (is_builtin T = true ->
       repr_type T = append "<type '" (append (type_name T) "'>"))) /\
  (forall o x r, type_of x <> TTuple -> py_repr x = Ok r ->
      Contains.__repr__ (Contains.__init__ o x) = Ok (wrap "Contains(" r ")")) /\
  (forall self r, repr_set (AnyOf._set self) = Ok r ->
      AnyOf.__repr__ self = Ok (wrap "AnyOf(" r ")")) /\
  (forall o c n ms,
      py_repr (VAny o c) = Any.__repr__ (Any.Make o c) /\
      py_repr (VContains o n) = Contains.__repr__ (Contains.Make o n) /\
      py_repr (VAnyOf o ms) = AnyOf.__repr__ (AnyOf.Make o ms)).
Proof.
  split; [|split; [|split; [|split; [|split]]]].
  - intros o. split; reflexivity.
  - intros o cls r Hobj Htup Hr.
    unfold Any.__repr__, py_format. cbn [Any.__init__ Any._cls].
    rewrite Hobj.
    destruct cls; cbn -[py_str wrap]; try (rewrite Hr; reflexivity).
    exfalso. apply Htup. reflexivity.
  - intros o T HT. split; [|split].
    + destruct T; try reflexivity. exfalso. apply HT. reflexivity.
    + reflexivity.
    + intros Hb. unfold repr_type. rewrite Hb. reflexivity.
  - intros o x r Hx Hr. unfold Contains.__repr__, py_format.
    destruct x; cbn -[py_repr wrap]; try (rewrite Hr; reflexivity).
    exfalso. apply Hx. reflexivity.
  - intros self r Hr. unfold AnyOf.__repr__. rewrite Hr. reflexivity.
  - intros o c n ms.
    split; [apply py_repr_Any|split; [apply py_repr_Contains|apply py_repr_AnyOf]].
Qed.

Lemma repr_of_matchers_witness :
  Any.__repr__ (Any.__init__ 0 (Some (VType TStr))) = Ok "Any(<type 'str'>)" /\
  Any.__repr__ (Any.__init__ 0 (Some (VType TBasestring)))
  = Ok "Any(<type 'basestring'>)" /\
  Contains.__repr__ (Contains.__init__ 0 (VInt 5)) = Ok "Contains(5)" /\
  AnyOf.__repr__ (AnyOf.Make 0 [VStr "a"]) = Ok "AnyOf(set(['a']))".
Proof.
  destruct repr_of_matchers as [_ [HAnyStr [HAny [HContains [HAnyOf _]]]]].
  split; [|split; [|split]].
  - refine (proj1 (HAny 0%nat TStr _)). discriminate.
  - apply (HAnyStr 0%nat (VType TBasestring) "<type 'basestring'>");
      [reflexivity|discriminate|reflexivity].
  - apply (HContains 0%nat (VInt 5) "5"); [discriminate|reflexivity].
  - apply (HAnyOf (AnyOf.Make 0 [VStr "a"]) "set(['a'])"). reflexivity.
Defined.

(* ================================================================== *)
(** ** Further properties *)

(** X1. A matcher inside a sequence takes part in the comparison of the
    sequences: [("bye bye", Any())] equals [("bye bye", v)] for every
    value [v], and so does the pair of lists; with the matcher in the
    right operand the same holds for a [v] whose class declines the
    comparison with the matcher, as the built-in values do. *)
Theorem Any_inside_sequences (o : nat) (s : string) (v : value) :
  py_eq (VTuple [VStr s; VAny o (VType TObject)]) (VTuple [VStr s; v]) = Ok true /\
  py_eq (VList [VStr s; VAny o (VType TObject)]) (VList [VStr s; v]) = Ok true /\
  (declines_eq v (VAny o (VType TObject)) = true ->
   py_eq (VTuple [VStr s; v]) (VTuple [VStr s; VAny o (VType TObject)]) = Ok true /\
   py_eq (VList [VStr s; v]) (VList [VStr s; VAny o (VType TObject)]) = Ok true).
Proof.
  assert (Hs : eq_item (VStr s) (VStr s) = Ok true).
  { unfold eq_item, py_eq; simpl. rewrite String.eqb_refl. reflexivity. }
  assert (Hl : forall w, eq_item (VAny o (VType TObject)) w = Ok true).
  { intros w. unfold eq_item. destruct (is_same _ w); [reflexivity|].
    rewrite py_eq_Any. unfold Any.__eq__; simpl.
    rewrite issubclass_object. reflexivity. }
  split; [|split].
  - rewrite py_eq_tuples. cbn [items_eq].
    rewrite Hs. cbn [bind]. rewrite Hl. reflexivity.
  - rewrite py_eq_lists. cbn [items_eq length Nat.eqb].
    rewrite Hs. cbn [bind]. rewrite Hl. reflexivity.
  - intros Hv.
    assert (Hr : eq_item v (VAny o (VType TObject)) = Ok true).
    { unfold eq_item. destruct (is_same v _); [reflexivity|].
      pose proof (py_eq_declined v (VAny o (VType TObject)) Hv eq_refl) as H.
      cbn [method_eq] in H. injection H as H. rewrite H.
      unfold Any.__eq__; simpl. rewrite issubclass_object. reflexivity. }
    rewrite py_eq_tuples, py_eq_lists. cbn [items_eq length Nat.eqb].
    rewrite Hs. cbn [bind]. rewrite Hr. split; reflexivity.
Qed.

Lemma Any_inside_sequences_witness :
  py_eq (VTuple [VStr "bye bye"; VStr "Fred"])
        (VTuple [VStr "bye bye"; VAny 0 (VType TObject)]) = Ok true.
Proof.
  apply (Any_inside_sequences 0 "bye bye" (VStr "Fred")). reflexivity.
Defined.

(** X2. Two or more arguments are the candidates themselves, iterable
    or not: when all are hashable the stored set holds their keys, each
    once; when one is not hashable, for instance a list, the
    constructor raises [TypeError]. *)
Theorem AnyOf_init_discrete (o : nat) (a b : value) (rest : list value) :
  (Forall (fun e => hashable e = true) (a :: b :: rest) ->
   exists m,
     AnyOf.__init__ o (a :: b :: rest) = Ok m /\
     incl (AnyOf._set m) (a :: b :: rest) /\
     NoDup (keys_of (AnyOf._set m)) /\
     (forall k, In k (keys_of (AnyOf._set m)) <-> In k (keys_of (a :: b :: rest)))) /\
  (Exists (fun e => hashable e = false) (a :: b :: rest) ->
   AnyOf.__init__ o (a :: b :: rest) = Raise TypeError).
Proof.
  assert (Hinit : AnyOf.__init__ o (a :: b :: rest)
                  = s <- set_of_items (a :: b :: rest) ;; Ok (AnyOf.Make o s)).
  { reflexivity. }
  rewrite Hinit. unfold set_of_items. split.
  - intros Hall.
    destruct (set_fill_total (a :: b :: rest) [] Hall) as [s Hs]. rewrite Hs.
    destruct (set_fill_spec _ _ _ Hs) as [Hin [Hnd _]].
    exists (AnyOf.Make o s). cbn [bind AnyOf._set].
    split; [reflexivity|].
    split; [exact (set_fill_incl _ _ _ Hs)|].
    split; [apply Hnd; constructor|].
    intros k. rewrite Hin. cbn [keys_of flat_map In]. tauto.
  - intros Hex. rewrite (set_fill_raises (a :: b :: rest) [] Hex). reflexivity.
Qed.

Lemma AnyOf_init_discrete_witness :
  AnyOf.__init__ 0 [VList [VInt 1]; VList [VInt 2]] = Raise TypeError /\
  exists m, AnyOf.__init__ 0 [VTuple [VInt 1]; VStr "ab"; VTuple [VInt 1]] = Ok m /\
            NoDup (keys_of (AnyOf._set m)).
Proof.
  split.
  - apply (proj2 (AnyOf_init_discrete 0 (VList [VInt 1]) (VList [VInt 2]) [])).
    left. reflexivity.
  - destruct (proj1 (AnyOf_init_discrete 0 (VTuple [VInt 1]) (VStr "ab")
                       [VTuple [VInt 1]]))
      as [m [H1 [_ [H3 _]]]].
    + repeat constructor.
    + exists m. auto.
Defined.

(** X3. A single list or tuple with an unhashable item cannot be stored:
    the constructor raises [TypeError]. *)
Theorem AnyOf_init_unhashable_item (o : nat) (xs : list value) (arg : value) :
  arg = VList xs \/ arg = VTuple xs ->
  Exists (fun e => hashable e = false) xs ->
  AnyOf.__init__ o [arg] = Raise TypeError.
Proof.
  intros Harg Hex. rewrite (AnyOf_init_single_sequence o xs arg Harg).
  unfold set_of_items. rewrite (set_fill_raises xs [] Hex). reflexivity.
Qed.

Lemma AnyOf_init_unhashable_item_witness :
  AnyOf.__init__ 0 [VList [VInt 1; VList [VInt 2]]] = Raise TypeError.
Proof.
  apply (AnyOf_init_unhashable_item 0 [VInt 1; VList [VInt 2]]
           (VList [VInt 1; VList [VInt 2]])).
  - left. reflexivity.
  - right. left. reflexivity.
Defined.

(** X4. Against a string candidate the needle has to be a string:
    [Contains(x) == "..."] raises [TypeError] for any other needle, on
    either side of [==]. *)
Theorem Contains_needle_for_string (o : nat) (x : value) (s : string) :
  type_of x <> TStr ->
  Contains.__eq__ (Contains.__init__ o x) (VStr s) = Raise TypeError /\
  py_eq (VContains o x) (VStr s) = Raise TypeError /\
  py_eq (VStr s) (VContains o x) = Raise TypeError.
Proof.
  intros Hx.
  assert (H : Contains.__eq__ (Contains.__init__ o x) (VStr s) = Raise TypeError).
  { destruct x; try reflexivity. exfalso. apply Hx. reflexivity. }
  split; [exact H|]. split.
  - rewrite py_eq_Contains. exact H.
  - pose proof (py_eq_reflected (VStr s) (VContains o x) eq_refl eq_refl) as Hr.
    cbn [method_eq] in Hr. unfold Contains.__init__ in H. congruence.
Qed.

Lemma Contains_needle_for_string_witness :
  Contains.__eq__ (Contains.__init__ 0 (VInt 5)) (VStr "abc") = Raise TypeError.
Proof.
  apply (Contains_needle_for_string 0 (VInt 5) "abc"). discriminate.
Defined.

(* ================================================================== *)
(** ** Any: tuples of classes, wrong classes, base classes *)

Lemma subclass_of_trans (a b c : pytype) :
  subclass_of a b -> subclass_of b c -> subclass_of a c.
Proof.
  induction 1 as [t|t d u Hd _ IH]; intros Hc; [exact Hc|].
  apply sub_base with d; [exact Hd|]. apply IH. exact Hc.
Qed.

Lemma isinstance_classes (v : value) (Ts : list pytype) :
  isinstance v (VTuple (map VType Ts))
  = Ok (existsb (issubclass (type_of v)) Ts).
Proof.
  simpl. induction Ts as [|T Ts IH]; simpl; [reflexivity|].
  destruct (issubclass (type_of v) T); simpl; [reflexivity|exact IH].
Qed.

Lemma isinstance_bad_class (v c : value) :
  type_of c <> TType -> type_of c <> TTuple -> isinstance v c = Raise TypeError.
Proof.
  intros H1 H2. destruct c; try reflexivity; exfalso; [apply H2|apply H1]; reflexivity.
Qed.

(** X5. With a tuple of classes as the expected type, [Any] matches a
    value exactly when one of the classes alone would match it: the
    class of the value is one of them or a subclass of one of them.
    Otherwise the answer is false, never an exception. *)
Theorem Any_eq_tuple_of_classes (o : nat) (Ts : list pytype) (v : value) :
  (Any.__eq__ (Any.__init__ o (Some (VTuple (map VType Ts)))) v = Ok true
   <-> exists T, In T Ts /\ subclass_of (type_of v) T) /\
  (Any.__eq__ (Any.__init__ o (Some (VTuple (map VType Ts)))) v = Ok true
   <-> exists T, In T Ts /\
                 Any.__eq__ (Any.__init__ o (Some (VType T))) v = Ok true) /\
  (Any.__eq__ (Any.__init__ o (Some (VTuple (map VType Ts)))) v = Ok false
   <-> forall T, In T Ts -> ~ subclass_of (type_of v) T).
Proof.
  unfold Any.__eq__. cbn [Any.__init__ Any._cls].
  rewrite isinstance_classes.
  assert (Hex : existsb (issubclass (type_of v)) Ts = true
                <-> exists T, In T Ts /\ subclass_of (type_of v) T).
  { rewrite existsb_exists.
    split; intros [T [HT H]]; exists T; split; auto; apply issubclass_spec; exact H. }
  split; [|split].
  - rewrite <- Hex. split; congruence.
  - split; intros H.
    + injection H as H. apply existsb_exists in H.
      destruct H as [T [HT H]]. exists T.
      split; [exact HT|]. simpl. rewrite H. reflexivity.
    + destruct H as [T [HT H]]. simpl in H. injection H as H.
      f_equal. apply existsb_exists. eauto.
  - split.
    + intros H T HT Hsub. injection H as H.
      assert (Ht : existsb (issubclass (type_of v)) Ts = true).
      { apply Hex. eauto. }
      congruence.
    + intros H. f_equal. apply not_true_is_false. intros E.
      apply Hex in E. destruct E as [T [HT Hsub]]. elim (H T HT Hsub).
Qed.

(** X6. The constructor of [Any] accepts anything; an expected type that
    is neither a class nor a tuple shows at the first comparison, where
    [__eq__] and [__ne__] raise [TypeError] for every candidate.  Inside
    a tuple, such an item is reached only when no class before it
    matches: the comparison is true if one does, and raises if none
    does. *)
Theorem Any_eq_bad_class (o : nat) (Ts : list pytype) (bad : value)
    (rest : list value) (v : value) :
  type_of bad <> TType -> type_of bad <> TTuple ->
  Any.__eq__ (Any.__init__ o (Some bad)) v = Raise TypeError /\
  Any.__ne__ (Any.__init__ o (Some bad)) v = Raise TypeError /\
  Any.__eq__ (Any.__init__ o (Some (VTuple (map VType Ts ++ bad :: rest)))) v
  = if existsb (issubclass (type_of v)) Ts then Ok true else Raise TypeError.
Proof.
  intros H1 H2.
  assert (Hbad : isinstance v bad = Raise TypeError)
    by (apply isinstance_bad_class; assumption).
  unfold Any.__ne__, Any.__eq__. cbn [Any.__init__ Any._cls].
  rewrite Hbad. split; [reflexivity|]. split; [reflexivity|].
  simpl. induction Ts as [|T Ts IH]; simpl.
  - rewrite Hbad. reflexivity.
  - destruct (issubclass (type_of v) T); simpl; [reflexivity|exact IH].
Qed.

Lemma Any_eq_bad_class_witness :
  Any.__eq__ (Any.__init__ 0 (Some (VInt 5))) (VStr "a") = Raise TypeError /\
  Any.__eq__ (Any.__init__ 0 (Some (VTuple [VType TInt; VInt 5]))) (VInt 1)
  = Ok true /\
  Any.__eq__ (Any.__init__ 0 (Some (VTuple [VType TInt; VInt 5]))) (VStr "a")
  = Raise TypeError.
Proof.
  split; [|split].
  - refine (proj1 (Any_eq_bad_class 0 [] (VInt 5) [] (VStr "a") _ _)); discriminate.
  - refine (proj2 (proj2 (Any_eq_bad_class 0 [TInt] (VInt 5) [] (VInt 1) _ _)));
      discriminate.
  - refine (proj2 (proj2 (Any_eq_bad_class 0 [TInt] (VInt 5) [] (VStr "a") _ _)));
      discriminate.
Defined.

(** X7. [Any] follows the class hierarchy upwards: what [Any(T)] matches
    is matched by [Any(U)] for every base class [U] of [T], and
    [Any(type(v))] matches [v]. *)
Theorem Any_eq_monotone (o o' : nat) (T U : pytype) (v : value) :
  subclass_of T U ->
  (Any.__eq__ (Any.__init__ o (Some (VType T))) v = Ok true ->
   Any.__eq__ (Any.__init__ o' (Some (VType U))) v = Ok true) /\
  Any.__eq__ (Any.__init__ o (Some (VType (type_of v)))) v = Ok true.
Proof.
  intros HTU. unfold Any.__eq__. cbn [Any.__init__ Any._cls isinstance]. split.
  - intros H. injection H as H. apply issubclass_spec in H.
    f_equal. apply issubclass_spec. apply subclass_of_trans with T; assumption.
  - rewrite issubclass_refl. reflexivity.
Qed.

Lemma Any_eq_monotone_witness :
  Any.__eq__ (Any.__init__ 1 (Some (VType TObject))) (VBool true) = Ok true.
Proof.
  refine (proj1 (Any_eq_monotone 0 1 TInt TObject (VBool true) _) _).
  - apply sub_base with TObject; [reflexivity|apply sub_refl].
  - reflexivity.
Defined.

(* ================================================================== *)
(** ** != on either side *)

(** X8. For a matcher [m] and a candidate [v] whose class declines both
    [v == m] and [v != m], as the built-in values do, [m != v] and
    [v != m] are the same call, the [__ne__] of [m], and both are the
    negation of [m == v] and of [v == m]. *)
Theorem ne_either_side (m v : value) :
  is_matcher m = true ->
  declines_eq v m = true -> declines_ne v m = true ->
  py_ne v m = py_ne m v /\
  py_ne m v = py_not (py_eq m v) /\
  py_ne v m = py_not (py_eq v m).
Proof.
  intros Hm Hv Hn.
  pose proof (py_eq_direct m v Hm) as Hd.
  pose proof (py_eq_declined v m Hv Hm) as Hr.
  pose proof (py_ne_direct m v Hm) as Hnd.
  pose proof (py_ne_declined v m Hn Hm) as Hnr.
  assert (Heq : py_eq v m = py_eq m v) by congruence.
  assert (Hsw : py_ne v m = py_ne m v) by congruence.
  assert (Hne : py_ne m v = py_not (py_eq m v)).
  { rewrite py_eq_unfold. unfold py_ne, dispatch_eq.
    destruct m; try discriminate Hm; reflexivity. }
  rewrite Heq, Hsw. auto.
Qed.

Lemma ne_either_side_witness :
  py_ne (VList [VStr "hello"; VStr "world"]) (VAny 0 (VType TBasestring))
  = py_ne (VAny 0 (VType TBasestring)) (VList [VStr "hello"; VStr "world"]).
Proof.
  apply (ne_either_side (VAny 0 (VType TBasestring))
           (VList [VStr "hello"; VStr "world"])); reflexivity.
Defined.

(* ================================================================== *)
(** ** Contains: plain sequences, empty candidates, substrings *)






Lemma is_substring_empty (s : string) : is_substring EmptyString s = true.
Proof. destruct s; reflexivity. Qed.

Lemma string_app_assoc (a b c : string) :
  append (append a b) c = append a (append b c).
Proof. induction a as [|x a IH]; simpl; [reflexivity|]. rewrite IH. reflexivity. Qed.

(** X10. Empty operands.  An empty list or tuple contains nothing:
    [Contains(x)] equals neither, whatever [x] is.  The empty string is
    found in every string, and in the empty string only the empty
    string is found. *)
Theorem Contains_eq_empty :
  (forall o x,
      Contains.__eq__ (Contains.__init__ o x) (VList []) = Ok false /\
      Contains.__eq__ (Contains.__init__ o x) (VTuple []) = Ok false) /\
  (forall o s,
      Contains.__eq__ (Contains.__init__ o (VStr "")) (VStr s) = Ok true) /\
  (forall o p,
      Contains.__eq__ (Contains.__init__ o (VStr p)) (VStr "") = Ok true
      <-> p = EmptyString).
Proof.
  split; [|split].
  - intros o x. split; reflexivity.
  - intros o s. unfold Contains.__eq__; simpl.
    rewrite is_substring_empty. reflexivity.
  - intros o p. unfold Contains.__eq__; simpl.
    destruct p; simpl; split; congruence.
Qed.

Lemma Contains_eq_strings (o : nat) (p s : string) :
  Contains.__eq__ (Contains.__init__ o (VStr p)) (VStr s) = Ok (is_substring p s).
Proof. reflexivity. Qed.

(** X11. On strings, matching by [Contains] is reflexive and
    transitive, and survives extending the candidate: [Contains(s)]
    equals [s]; if [Contains(p)] equals [q] and [Contains(q)] equals [s]
    then [Contains(p)] equals [s]; and if [Contains(p)] equals [s] it
    equals [a + s + b]. *)
Theorem Contains_substring_preorder :
  (forall o s, Contains.__eq__ (Contains.__init__ o (VStr s)) (VStr s) = Ok true) /\
  (forall o o' p q s,
      Contains.__eq__ (Contains.__init__ o (VStr p)) (VStr q) = Ok true ->
      Contains.__eq__ (Contains.__init__ o' (VStr q)) (VStr s) = Ok true ->
      Contains.__eq__ (Contains.__init__ o (VStr p)) (VStr s) = Ok true) /\
  (forall o p s a b,
      Contains.__eq__ (Contains.__init__ o (VStr p)) (VStr s) = Ok true ->
      Contains.__eq__ (Contains.__init__ o (VStr p))
                      (VStr (append a (append s b))) = Ok true).
Proof.
  split; [|split].
  - intros o s. rewrite Contains_eq_strings. f_equal.
    apply is_substring_spec. exists EmptyString, EmptyString. simpl.
    induction s as [|c s IH]; simpl; congruence.
  - intros o o' p q s Hpq Hqs. rewrite Contains_eq_strings in *.
    injection Hpq as Hpq. injection Hqs as Hqs. f_equal.
    apply is_substring_spec in Hpq, Hqs. apply is_substring_spec.
    destruct Hpq as [pre [post ->]]. destruct Hqs as [pre' [post' ->]].
    exists (append pre' pre), (append post post').
    rewrite !string_app_assoc. reflexivity.
  - intros o p s a b H. rewrite Contains_eq_strings in *.
    injection H as H. f_equal.
    apply is_substring_spec in H. apply is_substring_spec.
    destruct H as [pre [post ->]].
    exists (append a pre), (append post b).
    rewrite !string_app_assoc. reflexivity.
Qed.

Lemma Contains_substring_preorder_witness :
  Contains.__eq__ (Contains.__init__ 0 (VStr "ell")) (VStr "hello world") = Ok true.
Proof.
  destruct Contains_substring_preorder as [_ [Htrans _]].
  apply (Htrans 0%nat 1%nat "ell" "hello" "hello world"); reflexivity.
Defined.

(** X12. A needle that is a matcher object is found in a list or tuple
    that holds this very object, by identity and without calling its
    [__eq__], provided the comparisons with the items before it return:
    so [Contains(m)] equals [[m]] even for an [m] whose [m == m] raises
    or is false. *)
Theorem Contains_finds_same_object (o : nat) (m : value) (l1 l2 : list value)
    (c : value) :
  is_matcher m = true ->
  Forall (fun z => exists b, eq_item m z = Ok b) l1 ->
  c = VList (l1 ++ m :: l2) \/ c = VTuple (l1 ++ m :: l2) ->
  Contains.__eq__ (Contains.__init__ o m) c = Ok true.
Proof.
  intros Hm Hl1 Hc.
  assert (Hsame : eq_item m m = Ok true).
  { unfold eq_item, is_same. destruct m; try discriminate Hm; simpl;
      rewrite Nat.eqb_refl; reflexivity. }
  assert (Hin : Contains.__eq__ (Contains.__init__ o m) c
                = first_true (eq_item m) (l1 ++ m :: l2)).
  { destruct Hc as [-> | ->]; reflexivity. }
  rewrite Hin. clear Hin Hc.
  induction Hl1 as [|z r [b Hz] _ IH]; simpl.
  - rewrite Hsame. reflexivity.
  - rewrite Hz. simpl. destruct b; [reflexivity|exact IH].
Qed.

Lemma Contains_finds_same_object_witness :
  Contains.__eq__ (Contains.__init__ 0 (VContains 7 (VInt 1)))
                  (VList [VList [VInt 2]; VContains 7 (VInt 1)]) = Ok true /\
  py_eq (VContains 7 (VInt 1)) (VContains 7 (VInt 1)) = Raise TypeError.
Proof.
  split.
  - apply (Contains_finds_same_object 0 (VContains 7 (VInt 1))
             [VList [VInt 2]] []
             (VList [VList [VInt 2]; VContains 7 (VInt 1)])).
    + reflexivity.
    + constructor; [|constructor]. exists false. reflexivity.
    + left. reflexivity.
  - reflexivity.
Defined.

(* ================================================================== *)
(** ** AnyOf: the stored set *)

Lemma AnyOf_init_candidates (o : nat) {args xs : list value} :
  candidates args xs ->
  AnyOf.__init__ o args = s <- set_of_items xs ;; Ok (AnyOf.Make o s).
Proof. destruct 1; reflexivity. Qed.

Lemma set_fill_hashable {items ms ms' : list value} :
  set_fill ms items = Ok ms' -> Forall (fun e => hashable e = true) items.
Proof.
  revert ms. induction items as [|x rest IH]; intros ms H; [constructor|].
  simpl in H. unfold set_add in H.
  destruct (py_hash x) as [k|e] eqn:Hk; simpl in H; [|discriminate].
  constructor; [unfold hashable; rewrite Hk; reflexivity|].
  eapply IH. exact H.
Qed.


Lemma keys_of_same_items (xs ys : list value) :
  (forall x, In x xs <-> In x ys) ->
  forall k, In k (keys_of xs) <-> In k (keys_of ys).
Proof.
  intros H k. rewrite !keys_of_spec.
  split; intros [e [He Hk]]; exists e; split; auto; apply H; exact He.
Qed.

Lemma set_contains_by_keys (v : value) (ms ms' : list value) :
  (forall k, In k (keys_of ms) <-> In k (keys_of ms')) ->
  set_contains v ms = set_contains v ms'.
Proof.
  intros H. unfold set_contains. destruct (py_hash v) as [k|e]; [|reflexivity].
  simpl. f_equal. apply eq_true_iff_eq. rewrite !existsb_has_key. apply H.
Qed.

Lemma set_of_items_spec {xs s : list value} :
  set_of_items xs = Ok s ->
  (forall k, In k (keys_of s) <-> In k (keys_of xs)) /\
  NoDup (keys_of s) /\
  Forall (fun e => hashable e = true) s /\
  Forall (fun e => hashable e = true) xs.
Proof.
  unfold set_of_items. intros H.
  destruct (set_fill_spec _ _ _ H) as [Hin [Hnd Hall]].
  split; [|split; [|split]].
  - intros k. rewrite Hin. simpl. tauto.
  - apply Hnd. constructor.
  - apply Hall. constructor.
  - exact (set_fill_hashable H).
Qed.

Lemma AnyOf_init_inv {o : nat} {args xs : list value} {m : AnyOf.t} :
  candidates args xs -> AnyOf.__init__ o args = Ok m ->
  set_of_items xs = Ok (AnyOf._set m).
Proof.
  intros Hc H. rewrite (AnyOf_init_candidates o Hc) in H.
  destruct (set_of_items xs) as [s|e]; simpl in H; [|discriminate].
  injection H as <-. reflexivity.
Qed.

(** X13. Neither the order of the candidates nor their repetition nor
    the calling convention matters: two [AnyOf] built from the same
    candidates, listed in any order, any number of times, as arguments
    or as one list or tuple, give the same answer (boolean or
    exception) for every value. *)
Theorem AnyOf_order_and_duplicates (o o' : nat) (args args' xs ys : list value)
    (m m' : AnyOf.t) (v : value) :
  candidates args xs -> candidates args' ys ->
  (forall x, In x xs <-> In x ys) ->
  AnyOf.__init__ o args = Ok m -> AnyOf.__init__ o' args' = Ok m' ->
  AnyOf.__eq__ m v = AnyOf.__eq__ m' v /\
  AnyOf.__ne__ m v = AnyOf.__ne__ m' v.
Proof.
  intros Hc Hc' Hsame Hm Hm'.
  apply (AnyOf_init_inv Hc) in Hm. apply (AnyOf_init_inv Hc') in Hm'.
  destruct (set_of_items_spec Hm) as [Hk _].
  destruct (set_of_items_spec Hm') as [Hk' _].
  assert (H : AnyOf.__eq__ m v = AnyOf.__eq__ m' v).
  { apply set_contains_by_keys. intros k.
    rewrite Hk, Hk'. apply keys_of_same_items. exact Hsame. }
  unfold AnyOf.__ne__. rewrite H. auto.
Qed.

Lemma AnyOf_order_and_duplicates_witness :
  AnyOf.__eq__ (AnyOf.Make 0 [VInt 1; VInt 2; VInt 3]) (VInt 2)
  = AnyOf.__eq__ (AnyOf.Make 1 [VInt 3; VInt 2; VInt 1]) (VInt 2).
Proof.
  refine (proj1 (AnyOf_order_and_duplicates 0 1
                   [VInt 1; VInt 2; VInt 3]
                   [VList [VInt 3; VInt 2; VInt 2; VInt 1; VInt 3]]
                   [VInt 1; VInt 2; VInt 3]
                   [VInt 3; VInt 2; VInt 2; VInt 1; VInt 3]
                   (AnyOf.Make 0 [VInt 1; VInt 2; VInt 3])
                   (AnyOf.Make 1 [VInt 3; VInt 2; VInt 1]) (VInt 2)
                   (cand_args _ _ _) (cand_list _) _ eq_refl eq_refl)).
  intros x. simpl. tauto.
Defined.



Lemma hkey_eqb_refl (k : hkey) : hkey_eqb k k = true.
Proof. apply hkey_eqb_eq. reflexivity. Qed.

Lemma no_iter_hashable (a : value) :
  has_iter a = false -> exists k, py_hash a = Ok k.
Proof. destruct a; simpl; try discriminate; eauto. Qed.

(** X15. A single argument without an [__iter__] attribute (a number,
    [None], a string, a matcher, a class that has no such attribute,
    like [int] or [str]) is the one candidate: it is stored as it is
    and the matcher equals it.  A class that does have the attribute,
    like [list] and [tuple], is taken for an iterable: [AnyOf(list)]
    and [AnyOf(tuple)] try to walk through the class and raise
    [TypeError]. *)
Theorem AnyOf_init_single (o : nat) :
  (forall a, has_iter a = false ->
      AnyOf.__init__ o [a] = Ok (AnyOf.Make o [a]) /\
      AnyOf.__eq__ (AnyOf.Make o [a]) a = Ok true) /\
  (forall t, has_iter (VType t) = true ->
      AnyOf.__init__ o [VType t] = Raise TypeError) /\
  (forall t, has_iter (VType t) = false ->
      AnyOf.__init__ o [VType t] = Ok (AnyOf.Make o [VType t])) /\
  AnyOf.__init__ o [VType TList] = Raise TypeError /\
  AnyOf.__init__ o [VType TTuple] = Raise TypeError.
Proof.
  assert (H : forall a, has_iter a = false ->
      AnyOf.__init__ o [a] = Ok (AnyOf.Make o [a]) /\
      AnyOf.__eq__ (AnyOf.Make o [a]) a = Ok true).
  { intros a Ha. destruct (no_iter_hashable a Ha) as [k Hk].
    unfold AnyOf.__init__, AnyOf.discrete, AnyOf.__eq__, set_contains,
      set_of_items.
    cbn [length Nat.ltb Nat.leb set_fill AnyOf._set].
    rewrite Ha. cbn [negb bind]. unfold set_add. rewrite Hk. cbn [bind existsb app].
    rewrite (proj2 (has_key_spec k a) Hk). split; reflexivity. }
  split; [exact H|]. split; [|split; [|split]].
  - intros t Ht. destruct t; try discriminate Ht; reflexivity.
  - intros t Ht. apply H. exact Ht.
  - reflexivity.
  - reflexivity.
Qed.

Lemma AnyOf_init_single_witness :
  AnyOf.__eq__ (AnyOf.Make 0 [VNone]) VNone = Ok true /\
  AnyOf.__init__ 0 [VType TList] = Raise TypeError /\
  AnyOf.__init__ 0 [VType TInt] = Ok (AnyOf.Make 0 [VType TInt]).
Proof.
  destruct (AnyOf_init_single 0) as [Hs [Hl [Hc _]]].
  split; [|split].
  - apply (Hs VNone). reflexivity.
  - apply (Hl TList). reflexivity.
  - apply (Hc TInt). reflexivity.
Defined.

Lemma hkey_size_in (k : hkey) (ks : list hkey) :
  In k ks -> (hkey_size k < hkey_size (HTuple ks))%nat.
Proof.
  simpl. induction ks as [|j ks IH]; intros H; [contradiction|].
  destruct H as [->|H]; [lia|]. apply IH in H. lia.
Qed.

Lemma keys_of_map_result (xs : list value) (ks : list hkey) :
  map_result py_hash xs = Ok ks -> keys_of xs = ks.
Proof.
  revert ks. induction xs as [|x r IH]; intros ks H; simpl in H.
  - injection H as <-. reflexivity.
  - destruct (py_hash x) as [k|] eqn:Hk; simpl in H; [|discriminate].
    destruct (map_result py_hash r) as [kr|]; simpl in H; [|discriminate].
    injection H as <-. rewrite (keys_of_cons _ _ r Hk), (IH kr eq_refl).
    reflexivity.
Qed.

(** X16. A single tuple is always unpacked, so it cannot be a candidate
    by itself: the matcher built from a tuple never equals that tuple.
    To match a tuple it has to be given inside a list or together with
    other arguments. *)
Theorem AnyOf_tuple_is_unpacked (o : nat) (xs : list value) (m : AnyOf.t) :
  AnyOf.__init__ o [VTuple xs] = Ok m ->
  AnyOf.__eq__ m (VTuple xs) = Ok false /\
  AnyOf.__ne__ m (VTuple xs) = Ok true /\
  (forall o' m', AnyOf.__init__ o' [VList [VTuple xs]] = Ok m' ->
                 AnyOf.__eq__ m' (VTuple xs) = Ok true).
Proof.
  intros Hm. apply (AnyOf_init_inv (cand_tuple xs)) in Hm.
  destruct (set_of_items_spec Hm) as [Hk [_ [_ Hxs]]].
  assert (Hks : exists ks, map_result py_hash xs = Ok ks).
  { clear -Hxs. induction Hxs as [|x r Hx _ [kr IH]]; simpl; [eauto|].
    unfold hashable in Hx. destruct (py_hash x); [|discriminate].
    rewrite IH. simpl. eauto. }
  destruct Hks as [ks Hks].
  assert (Hh : py_hash (VTuple xs) = Ok (HTuple ks)).
  { simpl. rewrite Hks. reflexivity. }
  assert (Heq : AnyOf.__eq__ m (VTuple xs) = Ok false).
  { unfold AnyOf.__eq__, set_contains. rewrite Hh. simpl. f_equal.
    apply not_true_is_false. intros E. apply existsb_has_key in E.
    apply Hk in E. rewrite (keys_of_map_result xs ks Hks) in E.
    apply hkey_size_in in E. lia. }
  split; [exact Heq|]. split.
  - unfold AnyOf.__ne__. rewrite Heq. reflexivity.
  - intros o' m' Hm'. apply (AnyOf_init_inv (cand_list [VTuple xs])) in Hm'.
    destruct (set_of_items_spec Hm') as [Hk' _].
    apply set_contains_true. exists (HTuple ks). split; [exact Hh|].
    apply Hk'. rewrite (keys_of_cons _ _ [] Hh). left. reflexivity.
Qed.

Lemma AnyOf_tuple_is_unpacked_witness :
  AnyOf.__eq__ (AnyOf.Make 0 [VInt 1; VInt 2]) (VTuple [VInt 1; VInt 2]) = Ok false.
Proof.
  apply (AnyOf_tuple_is_unpacked 0 [VInt 1; VInt 2] (AnyOf.Make 0 [VInt 1; VInt 2])).
  reflexivity.
Defined.

Lemma plain_hash_not_id (v : value) (k : hkey) :
  plain v = true -> py_hash v = Ok k -> forall o, k <> HId o.
Proof.
  intros Pv Hk o. destruct v as [| | | |xs|xs| | | |]; simpl in Pv, Hk;
    try discriminate Pv; try discriminate Hk;
    try (injection Hk as <-; discriminate).
  destruct (map_result py_hash xs); simpl in Hk; [|discriminate].
  injection Hk as <-. discriminate.
Qed.

Lemma matcher_hash_id (m : value) :
  is_matcher m = true -> exists o, oid_of m = Some o /\ py_hash m = Ok (HId o).
Proof. destruct m; simpl; try discriminate; eauto. Qed.

(** X17. The stored set is searched by hash and identity, so matchers
    lose their wildcard behaviour inside and in front of [AnyOf]: a set
    that holds only matchers equals no value without matchers in it
    (not even with [Any()] stored), a matcher as candidate is not found
    among stored values that are not matchers, and a stored matcher is
    found exactly by the same object.  (Matchers hash by their address
    in Python 2; a chance collision of an address with the hash of
    another value is left out.) *)
Theorem AnyOf_matchers_by_identity (o : nat) (ms : list value) (v : value) :
  (Forall (fun e => is_matcher e = true) ms ->
   plain v = true -> hashable v = true ->
   AnyOf.__eq__ (AnyOf.Make o ms) v = Ok false) /\
  (forallb plain ms = true -> is_matcher v = true ->
   AnyOf.__eq__ (AnyOf.Make o ms) v = Ok false) /\
  (Forall (fun e => is_matcher e = true) ms -> is_matcher v = true ->
   (AnyOf.__eq__ (AnyOf.Make o ms) v = Ok true
    <-> exists e, In e ms /\ is_same e v = true)).
Proof.
  split; [|split].
  - intros Hms Pv Hv. unfold hashable in Hv.
    destruct (py_hash v) as [k|] eqn:Hk; [|discriminate].
    unfold AnyOf.__eq__, set_contains. rewrite Hk. simpl. f_equal.
    apply not_true_is_false. intros E. apply existsb_exists in E.
    destruct E as [e [He E]]. apply has_key_spec in E.
    rewrite Forall_forall in Hms.
    destruct (matcher_hash_id e (Hms e He)) as [oe [_ Hoe]].
    rewrite Hoe in E. injection E as <-.
    exact (plain_hash_not_id v _ Pv Hk oe eq_refl).
  - intros Pms Hv. destruct (matcher_hash_id v Hv) as [ov [_ Hov]].
    unfold AnyOf.__eq__, set_contains. rewrite Hov. simpl. f_equal.
    apply not_true_is_false. intros E. apply existsb_exists in E.
    destruct E as [e [He E]]. apply has_key_spec in E.
    rewrite forallb_forall in Pms.
    exact (plain_hash_not_id e _ (Pms e He) E ov eq_refl).
  - intros Hms Hv. destruct (matcher_hash_id v Hv) as [ov [Hid Hov]].
    rewrite Forall_forall in Hms.
    unfold AnyOf.__eq__, set_contains. rewrite Hov. simpl. split.
    + intros E. injection E as E. apply existsb_exists in E.
      destruct E as [e [He E]]. apply has_key_spec in E.
      exists e. split; [exact He|].
      destruct (matcher_hash_id e (Hms e He)) as [oe [Hide Hoe]].
      rewrite Hoe in E. injection E as ->.
      unfold is_same. rewrite Hide, Hid. apply Nat.eqb_refl.
    + intros [e [He Hsame]]. f_equal. apply existsb_exists.
      exists e. split; [exact He|]. apply has_key_spec.
      destruct (matcher_hash_id e (Hms e He)) as [oe [Hide Hoe]].
      unfold is_same in Hsame. rewrite Hide, Hid in Hsame.
      apply Nat.eqb_eq in Hsame. subst oe. exact Hoe.
Qed.

Lemma AnyOf_matchers_by_identity_witness :
  AnyOf.__eq__ (AnyOf.Make 0 [VAny 1 (VType TObject)]) (VInt 5) = Ok false /\
  AnyOf.__eq__ (AnyOf.Make 0 [VInt 5]) (VAny 1 (VType TObject)) = Ok false.
Proof.
  split.
  - apply (proj1 (AnyOf_matchers_by_identity 0 [VAny 1 (VType TObject)] (VInt 5)));
      [repeat constructor|reflexivity|reflexivity].
  - apply (proj1 (proj2 (AnyOf_matchers_by_identity 0 [VInt 5]
                           (VAny 1 (VType TObject)))));
      reflexivity.
Defined.

(* ================================================================== *)
(** ** __repr__ with a tuple as attribute *)

Lemma py_repr_plain_total (v : value) :
  plain v = true -> exists s, py_repr v = Ok s.
Proof.
  assert (Hmap : forall xs,
             Forall (fun x => plain x = true -> exists s, py_repr x = Ok s) xs ->
             forallb plain xs = true ->
             exists rs, map_result py_repr xs = Ok rs).
  { induction 1 as [|x r Hx _ IH]; intros P; simpl; [eauto|].
    simpl in P. apply andb_true_iff in P. destruct P as [Px Pr].
    destruct (Hx Px) as [s Hs]. destruct (IH Pr) as [rs Hrs].
    rewrite Hs, Hrs. simpl. eauto. }
  induction v as [|b|n|s|xs IH|xs IH|t|o c IH|o n IH|o ms IH] using value_ind';
    intros P; simpl in P; try discriminate P; try (simpl; eauto; fail).
  - destruct (Hmap xs IH P) as [rs Hrs]. simpl. rewrite Hrs. simpl. eauto.
  - destruct (Hmap xs IH P) as [rs Hrs]. simpl. rewrite Hrs. simpl. eauto.
Qed.

Lemma format_tuple_length (pre post : string) (c : conversion) (xs : list value) :
  length xs <> 1%nat -> py_format pre c post (VTuple xs) = Raise TypeError.
Proof.
  intros H. unfold py_format. destruct xs as [|x [|y r]]; try reflexivity.
  exfalso. apply H. reflexivity.
Qed.

(** X18. The formatting operator takes a tuple on its right as the
    tuple of its arguments, so an attribute that is a tuple is not
    printed as one.  [Contains.__repr__] with a 1-tuple as needle prints
    the item in place of the tuple, and with a tuple of any other
    length raises [TypeError]; for a needle without matchers inside,
    that is the only way it raises.  [Any.__repr__] with a tuple of
    classes behaves the same: a 1-tuple of a class [T] prints
    [Any(] [str] of [T] [)], which is what [Any(T)] prints for every
    class but [object] ([Any(object)] prints [Any()], and
    [Any((object,))] prints [Any(<type 'object'>)]); any other length
    raises. *)
Theorem repr_with_tuple_attribute :
  (forall o x,
      Contains.__repr__ (Contains.__init__ o (VTuple [x]))
      = s <- py_repr x ;; Ok (wrap "Contains(" s ")")) /\
  (forall o xs, length xs <> 1%nat ->
      Contains.__repr__ (Contains.__init__ o (VTuple xs)) = Raise TypeError) /\
  (forall o n, plain n = true ->
      (raises (Contains.__repr__ (Contains.__init__ o n)) = true
       <-> exists xs, n = VTuple xs /\ length xs <> 1%nat)) /\
  (forall o T,
      Any.__repr__ (Any.__init__ o (Some (VTuple [VType T])))
      = Ok (wrap "Any(" (repr_type T) ")")) /\
  (forall o T, T <> TObject ->
      Any.__repr__ (Any.__init__ o (Some (VTuple [VType T])))
      = Any.__repr__ (Any.__init__ o (Some (VType T)))) /\
  (forall o,
      Any.__repr__ (Any.__init__ o (Some (VTuple [VType TObject])))
      = Ok "Any(<type 'object'>)" /\
      Any.__repr__ (Any.__init__ o (Some (VType TObject))) = Ok "Any()") /\
  (forall o xs, length xs <> 1%nat ->
      Any.__repr__ (Any.__init__ o (Some (VTuple xs))) = Raise TypeError).
Proof.
  split; [|split; [|split; [|split; [|split; [|split]]]]].
  - intros o x. reflexivity.
  - intros o xs H. apply format_tuple_length. exact H.
  - intros o n P. split.
    + intros H. destruct n as [| | | |xs|xs| | | |];
        try (destruct (py_repr_plain_total _ P) as [r Hr];
             unfold Contains.__repr__, py_format in H;
             cbn -[py_repr wrap] in H; rewrite Hr in H; discriminate H);
        try discriminate P.
      exists xs. split; [reflexivity|]. intros Hlen.
      destruct xs as [|x [|y r]]; try discriminate Hlen.
      simpl in P. rewrite andb_true_r in P.
      destruct (py_repr_plain_total x P) as [s Hs].
      unfold Contains.__repr__, py_format in H.
      cbn -[py_repr wrap] in H. rewrite Hs in H. discriminate H.
    + intros [xs [-> Hlen]].
      unfold Contains.__repr__. cbn [Contains.__init__ Contains._value].
      rewrite (format_tuple_length _ _ _ xs Hlen). reflexivity.
  - intros o T. reflexivity.
  - intros o T HT. destruct T; try reflexivity. exfalso. apply HT. reflexivity.
  - intros o. split; reflexivity.
  - intros o xs H. unfold Any.__repr__. cbn [Any.__init__ Any._cls is_object].
    apply format_tuple_length. exact H.
Qed.

Lemma repr_with_tuple_attribute_witness :
  Contains.__repr__ (Contains.__init__ 0 (VTuple [VStr "a"; VStr "b"]))
  = Raise TypeError /\
  Any.__repr__ (Any.__init__ 0 (Some (VTuple []))) = Raise TypeError.
Proof.
  destruct repr_with_tuple_attribute as [_ [HC [_ [_ [_ [_ HA]]]]]].
  split.
  - apply (HC 0%nat [VStr "a"; VStr "b"]). discriminate.
  - apply (HA 0%nat []). discriminate.
Defined.
